(** * bibxml-service: the indexed-citation query layer and the xml2rfc serializer

    A shallow embedding of [main/indexed.py] and of the serializer entry
    points exercised by [xml2rfc_compat/tests.py], with the properties the
    specification states about them.

    Layout: the Python layer (exceptions, [try]/[except], string helpers);
    JSON documents and [json.dumps]; the store's side of JSON (reading
    text into [jsonb], [@>], lax path queries); the record store (rows,
    statements issued, the statements it understands); the functions of
    [main/indexed.py]; the serializer with the fixtures of its tests; then
    the lemmas and theorems.  [search_refs_json_repr_match] is left out:
    it hands the text to the store's full-text search and nothing else. *)

From Stdlib Require Import ZArith List Bool Ascii String Decimal DecimalString DecimalZ Lia.
From stdpp Require Import base option gmap strings.

Import ListNotations.
Set Warnings "-register-all".
Local Open Scope string_scope.
Local Open Scope list_scope.

(** ** Python layer *)

Module Py.

(** Exception classes that occur in the modelled code.  [DoesNotExist]
    and [MultipleObjectsReturned] are the per-model classes
    [RefData.DoesNotExist] and [RefData.MultipleObjectsReturned]. *)
Inductive exc_class : Type :=
| DoesNotExist_class
| MultipleObjectsReturned_class
| RefNotFoundError_class
| ValueError_class
| TypeError_class
| ProgrammingError_class
| DataError_class.

(** Exception instances, with their constructor arguments. *)
Inductive exception : Type :=
| DoesNotExist
| MultipleObjectsReturned
| RefNotFoundError (message query_repr : string)
| ValueError (message : string)
| TypeError (message : string)
| ProgrammingError (message : string)
| DataError (message : string).

Definition class_of (e : exception) : exc_class :=
  match e with
  | DoesNotExist => DoesNotExist_class
  | MultipleObjectsReturned => MultipleObjectsReturned_class
  | RefNotFoundError _ _ => RefNotFoundError_class
  | ValueError _ => ValueError_class
  | TypeError _ => TypeError_class
  | ProgrammingError _ => ProgrammingError_class
  | DataError _ => DataError_class
  end.

Definition exc_class_eqb (a b : exc_class) : bool :=
  match a, b with
  | DoesNotExist_class, DoesNotExist_class
  | MultipleObjectsReturned_class, MultipleObjectsReturned_class
  | RefNotFoundError_class, RefNotFoundError_class
  | ValueError_class, ValueError_class
  | TypeError_class, TypeError_class
  | ProgrammingError_class, ProgrammingError_class
  | DataError_class, DataError_class => true
  | _, _ => false
  end.

(** How a call ends. *)
Inductive outcome (A : Type) : Type :=
| Return (a : A)
| Raise (e : exception).
Arguments Return {A} a.
Arguments Raise {A} e.

(** What the expression after [except] evaluates to: a class
    ([except RefData.DoesNotExist:]) or an instance
    ([except RefData.MultipleObjectsReturned():], with the call). *)
Inductive except_target : Type :=
| Class (c : exc_class)
| Instance (e : exception).

(** The interpreter's complaint when an [except] clause is matched
    against something that is not an exception class. *)
Definition catching_non_class : exception :=
  TypeError "catching classes that do not inherit from BaseException is not allowed".

(** Truthiness of a [str]: the empty string is falsy. *)
Definition str_truthy (s : string) : bool :=
  match s with
  | EmptyString => false
  | String _ _ => true
  end.

(** [x in l] for a list of strings. *)
Definition str_in (x : string) (l : list string) : bool :=
  existsb (String.eqb x) l.

(** [sep.join(parts)]. *)
Fixpoint join (sep : string) (parts : list string) : string :=
  match parts with
  | [] => EmptyString
  | [p] => p
  | p :: rest => p +:+ sep +:+ join sep rest
  end.

(** [template % arg] for a template whose only conversion is one [%s]:
    the first [%s] is replaced by [arg], the rest is copied. *)
Fixpoint percent_s (template arg : string) : string :=
  match template with
  | EmptyString => EmptyString
  | String c rest =>
      match rest with
      | String d rest' =>
          if (Ascii.eqb c "%" && Ascii.eqb d "s")%bool
          then arg +:+ rest'
          else String c (percent_s rest arg)
      | EmptyString => String c EmptyString
      end
  end.

End Py.
Export Py.

(** ** JSON documents *)

Module Json.

(** A JSON document as Python holds it after [json.loads] and as the
    store holds it in a [jsonb] column: [None], [bool], [int], [str],
    [list], and [dict] with string keys (an association list in
    insertion order; a dict has no key twice).

    The documents covered are those whose numbers are integers, whose
    dict keys are strings and whose characters are code points below
    256.  A [float], a key that is not a string (which [json.dumps]
    would turn into one) and characters from 256 on are not covered;
    what is proved about documents is proved about these. *)
Unset Elimination Schemes.
Inductive json : Type :=
| JNull
| JBool (b : bool)
| JNum (n : Z)
| JStr (s : string)
| JArr (items : list json)
| JObj (members : list (string * json)).
Set Elimination Schemes.

Definition is_scalar (j : json) : bool :=
  match j with
  | JArr _ | JObj _ => false
  | _ => true
  end.

Definition is_dict (j : json) : bool :=
  match j with JObj _ => true | _ => false end.

Definition is_list (j : json) : bool :=
  match j with JArr _ => true | _ => false end.

(** What a search pattern is declared to be: a [dict] or a [list]. *)
Definition is_document (j : json) : bool := (is_dict j || is_list j)%bool.

(** The value bound to [key] in a dict's members. *)
Fixpoint member (key : string) (members : list (string * json)) : option json :=
  match members with
  | [] => None
  | (k, v) :: rest => if String.eqb k key then Some v else member key rest
  end.

(** Equality of two scalars; [false] as soon as one side is a container. *)
Definition scalar_eqb (a b : json) : bool :=
  match a, b with
  | JNull, JNull => true
  | JBool x, JBool y => Bool.eqb x y
  | JNum x, JNum y => Z.eqb x y
  | JStr x, JStr y => String.eqb x y
  | _, _ => false
  end.

(** *** [json.dumps] with its default arguments *)

Definition dquote : ascii := "034"%char.
Definition backslash : ascii := "092"%char.

Definition hex_digit (n : N) : ascii :=
  if (n <? 10)%N then ascii_of_N (48 + n) else ascii_of_N (87 + n).

(** One character inside a string literal ([ensure_ascii=True]): the
    quote and the backslash are escaped, the usual control characters
    have short escapes, anything else outside [' '..'~'] becomes a
    four-digit [\u] escape. *)
Definition escape_char (c : ascii) : string :=
  let n := N_of_ascii c in
  if Ascii.eqb c dquote then String backslash (String dquote EmptyString)
  else if Ascii.eqb c backslash then String backslash (String backslash EmptyString)
  else if (n =? 10)%N then String backslash "n"
  else if (n =? 13)%N then String backslash "r"
  else if (n =? 9)%N then String backslash "t"
  else if (n =? 8)%N then String backslash "b"
  else if (n =? 12)%N then String backslash "f"
  else if ((32 <=? n) && (n <=? 126))%N%bool then String c EmptyString
  else String backslash
         ("u00" +:+ String (hex_digit (n / 16)) (String (hex_digit (n mod 16)) EmptyString)).

Fixpoint escape (s : string) : string :=
  match s with
  | EmptyString => EmptyString
  | String c rest => escape_char c +:+ escape rest
  end.

Definition dumps_str (s : string) : string :=
  String dquote (escape s +:+ String dquote EmptyString).

Definition dumps_int (n : Z) : string :=
  NilZero.string_of_int (Z.to_int n).

(** Items separated by [", "], keys and values by [": "]. *)
Fixpoint dumps (j : json) : string :=
  match j with
  | JNull => "null"
  | JBool true => "true"
  | JBool false => "false"
  | JNum n => dumps_int n
  | JStr s => dumps_str s
  | JArr items => "[" +:+ Py.join ", " (map dumps items) +:+ "]"
  | JObj members =>
      "{" +:+ Py.join ", " (map (fun kv => dumps_str (fst kv) +:+ ": " +:+ dumps (snd kv)) members)
          +:+ "}"
  end.

End Json.
Export Json.

(** ** The store's [jsonb] type: reading JSON text, containment, path queries *)

Module Jsonb.

Definition is_ws (c : ascii) : bool :=
  let n := N_of_ascii c in
  ((n =? 32) || (n =? 9) || (n =? 10) || (n =? 13))%N%bool.

Fixpoint skip_ws (s : string) : string :=
  match s with
  | String c rest => if is_ws c then skip_ws rest else s
  | EmptyString => s
  end.

(** [expect word s]: [s] without its prefix [word]. *)
Fixpoint expect (word s : string) : option string :=
  match word with
  | EmptyString => Some s
  | String w word' =>
      match s with
      | String c rest => if Ascii.eqb c w then expect word' rest else None
      | EmptyString => None
      end
  end.

Definition digit_of (c : ascii) : option (uint -> uint) :=
  match N_of_ascii c with
  | 48%N => Some D0 | 49%N => Some D1 | 50%N => Some D2 | 51%N => Some D3
  | 52%N => Some D4 | 53%N => Some D5 | 54%N => Some D6 | 55%N => Some D7
  | 56%N => Some D8 | 57%N => Some D9
  | _ => None
  end.

(** The longest prefix of decimal digits, most significant first. *)
Fixpoint read_digits (s : string) : uint * string :=
  match s with
  | String c rest =>
      match digit_of c with
      | Some d => let (u, r) := read_digits rest in (d u, r)
      | None => (Nil, s)
      end
  | EmptyString => (Nil, s)
  end.

(** An integer literal: at least one digit, no leading zero except for
    zero itself. *)
Definition well_formed_digits (u : uint) : bool :=
  match u with
  | Nil => false
  | D0 Nil => true
  | D0 _ => false
  | _ => true
  end.

Definition read_int (s : string) : option (Z * string) :=
  match s with
  | String c rest =>
      if Ascii.eqb c "-" then
        let (u, r) := read_digits rest in
        if well_formed_digits u then Some (Z.of_int (Neg u), r) else None
      else
        let (u, r) := read_digits s in
        if well_formed_digits u then Some (Z.of_int (Pos u), r) else None
  | EmptyString => None
  end.

Definition hex_value (c : ascii) : option N :=
  let n := N_of_ascii c in
  if ((48 <=? n) && (n <=? 57))%N%bool then Some (n - 48)%N
  else if ((97 <=? n) && (n <=? 102))%N%bool then Some (n - 87)%N
  else if ((65 <=? n) && (n <=? 70))%N%bool then Some (n - 55)%N
  else None.

(** The code point of a [\uXXXX] escape, when it is below 256.  The
    escape [\u0000] is refused: [jsonb] cannot hold the NUL character. *)
Definition hex4 (a b c d : ascii) : option ascii :=
  match hex_value a, hex_value b, hex_value c, hex_value d with
  | Some x, Some y, Some z, Some w =>
      let v := (((x * 16 + y) * 16 + z) * 16 + w)%N in
      if (v =? 0)%N then None
      else if (v <? 256)%N then Some (ascii_of_N v) else None
  | _, _, _, _ => None
  end.

(** The character a one-letter escape stands for. *)
Definition unescape (e : ascii) : option ascii :=
  if Ascii.eqb e dquote then Some dquote
  else if Ascii.eqb e backslash then Some backslash
  else if Ascii.eqb e "/" then Some "/"%char
  else if Ascii.eqb e "n" then Some "010"%char
  else if Ascii.eqb e "r" then Some "013"%char
  else if Ascii.eqb e "t" then Some "009"%char
  else if Ascii.eqb e "b" then Some "008"%char
  else if Ascii.eqb e "f" then Some "012"%char
  else None.

Definition prepend (c : ascii) (r : option (string * string)) : option (string * string) :=
  match r with
  | Some (s, rest) => Some (String c s, rest)
  | None => None
  end.

(** The inside of a string literal, up to the closing quote. *)
Fixpoint read_string (s : string) : option (string * string) :=
  match s with
  | EmptyString => None
  | String c rest =>
      if Ascii.eqb c dquote then Some (EmptyString, rest)
      else if Ascii.eqb c backslash then
        match rest with
        | String e rest1 =>
            match unescape e with
            | Some ch => prepend ch (read_string rest1)
            | None =>
                if Ascii.eqb e "u" then
                  match rest1 with
                  | String h1 (String h2 (String h3 (String h4 rest2))) =>
                      match hex4 h1 h2 h3 h4 with
                      | Some ch => prepend ch (read_string rest2)
                      | None => None
                      end
                  | _ => None
                  end
                else None
            end
        | EmptyString => None
        end
      else if (N_of_ascii c <? 32)%N then None
      else prepend c (read_string rest)
  end.

(** Recursive descent over values, array items and object members.
    [fuel] bounds the number of nested calls; the length of the text is
    always enough. *)
Fixpoint read_value (fuel : nat) (s : string) : option (json * string) :=
  match fuel with
  | O => None
  | S fuel' =>
      match skip_ws s with
      | EmptyString => None
      | String c rest =>
          if Ascii.eqb c "n" then
            match expect "ull" rest with Some r => Some (JNull, r) | None => None end
          else if Ascii.eqb c "t" then
            match expect "rue" rest with Some r => Some (JBool true, r) | None => None end
          else if Ascii.eqb c "f" then
            match expect "alse" rest with Some r => Some (JBool false, r) | None => None end
          else if Ascii.eqb c dquote then
            match read_string rest with Some (str, r) => Some (JStr str, r) | None => None end
          else if Ascii.eqb c "[" then
            match skip_ws rest with
            | String d r =>
                if Ascii.eqb d "]" then Some (JArr [], r)
                else match read_items fuel' rest with
                     | Some (items, r') => Some (JArr items, r')
                     | None => None
                     end
            | EmptyString => None
            end
          else if Ascii.eqb c "{" then
            match skip_ws rest with
            | String d r =>
                if Ascii.eqb d "}" then Some (JObj [], r)
                else match read_members fuel' rest with
                     | Some (members, r') => Some (JObj members, r')
                     | None => None
                     end
            | EmptyString => None
            end
          else
            match read_int (String c rest) with
            | Some (n, r) => Some (JNum n, r)
            | None => None
            end
      end
  end
with read_items (fuel : nat) (s : string) : option (list json * string) :=
  match fuel with
  | O => None
  | S fuel' =>
      match read_value fuel' s with
      | Some (item, r) =>
          match skip_ws r with
          | String d r' =>
              if Ascii.eqb d "]" then Some ([item], r')
              else if Ascii.eqb d "," then
                match read_items fuel' r' with
                | Some (items, r'') => Some (item :: items, r'')
                | None => None
                end
              else None
          | EmptyString => None
          end
      | None => None
      end
  end
with read_members (fuel : nat) (s : string) : option (list (string * json) * string) :=
  match fuel with
  | O => None
  | S fuel' =>
      match skip_ws s with
      | String q r0 =>
          if Ascii.eqb q dquote then
            match read_string r0 with
            | Some (key, r1) =>
                match skip_ws r1 with
                | String colon r2 =>
                    if Ascii.eqb colon ":" then
                      match read_value fuel' r2 with
                      | Some (value, r3) =>
                          match skip_ws r3 with
                          | String d r4 =>
                              if Ascii.eqb d "}" then Some ([(key, value)], r4)
                              else if Ascii.eqb d "," then
                                match read_members fuel' r4 with
                                | Some (members, r5) => Some ((key, value) :: members, r5)
                                | None => None
                                end
                              else None
                          | EmptyString => None
                          end
                      | None => None
                      end
                    else None
                | EmptyString => None
                end
            | None => None
            end
          else None
      | EmptyString => None
      end
  end.

(** [text::jsonb]: the whole text is one JSON value, surrounded by
    optional white space. *)
Definition jsonb_in (text : string) : option json :=
  match read_value (S (String.length text)) text with
  | Some (j, rest) =>
      match skip_ws rest with
      | EmptyString => Some j
      | String _ _ => None
      end
  | None => None
  end.

(** *** What a [jsonb] value can hold *)

Definition nul : ascii := "000"%char.

(** No character of the string is NUL. *)
Fixpoint nul_free (s : string) : bool :=
  match s with
  | EmptyString => true
  | String c rest => (negb (Ascii.eqb c nul) && nul_free rest)%bool
  end.

(** A document the store takes as [jsonb]: no string in it, key or
    value, holds the NUL character, which [json.dumps] writes as
    [\u0000] and the store refuses. *)
Fixpoint storable (j : json) : bool :=
  match j with
  | JStr s => nul_free s
  | JArr items => forallb storable items
  | JObj members =>
      forallb (fun kv => (nul_free (fst kv) && storable (snd kv))%bool) members
  | _ => true
  end.

End Jsonb.
Export Jsonb.

Module JsonbOps.

(** *** [@>] *)

(** The store's containment walk over two containers of the same kind.
    For an object pattern every key must be bound in [val], to an equal
    scalar or to a container that contains the pattern's.  For an array
    pattern every scalar item must occur among the items of [val], and
    every container item must be contained in some container item of
    [val].  (The store compares the number of pairs first; with unique
    keys that only saves time.) *)
Fixpoint deep_contains (val pat : json) {struct pat} : bool :=
  match pat with
  | JObj pmembers =>
      match val with
      | JObj vmembers =>
          forallb (fun kv =>
                     match kv with
                     | (k, p) =>
                         match member k vmembers with
                         | None => false
                         | Some lhs =>
                             if (is_scalar lhs || is_scalar p)%bool
                             then scalar_eqb lhs p
                             else deep_contains lhs p
                         end
                     end) pmembers
      | _ => false
      end
  | JArr pitems =>
      match val with
      | JArr vitems =>
          forallb (fun p =>
                     if is_scalar p
                     then existsb (scalar_eqb p) vitems
                     else existsb (fun v => (negb (is_scalar v) && deep_contains v p)%bool) vitems)
                  pitems
      | _ => false
      end
  | _ => false
  end.

(** A scalar at the root is kept as a one-item array marked as a raw
    scalar. *)
Definition as_root_array (j : json) : json :=
  if is_scalar j then JArr [j] else j.

(** [val @> pat]: the roots must both be objects or both be arrays; a
    raw scalar cannot contain a real array. *)
Definition jsonb_contains (val pat : json) : bool :=
  if Bool.eqb (is_dict val) (is_dict pat) then
    if (is_scalar val && negb (is_scalar pat))%bool then false
    else deep_contains (as_root_array val) (as_root_array pat)
  else false.

(** Containment in the specification's words: every key of the pattern
    is present in the body with a value that contains the pattern's,
    every item of a pattern array is contained in some item of the body
    array, scalars must be equal. *)
Fixpoint structurally_contains (body pat : json) {struct pat} : bool :=
  match pat with
  | JObj pmembers =>
      match body with
      | JObj bmembers =>
          forallb (fun kv =>
                     match kv with
                     | (k, p) =>
                         match member k bmembers with
                         | Some b => structurally_contains b p
                         | None => false
                         end
                     end) pmembers
      | _ => false
      end
  | JArr pitems =>
      match body with
      | JArr bitems =>
          forallb (fun p => existsb (fun b => structurally_contains b p) bitems) pitems
      | _ => false
      end
  | _ => scalar_eqb body pat
  end.

(** *** Path queries in lax mode *)

Definition option_list {A : Type} (o : option A) : list A :=
  match o with Some a => [a] | None => [] end.

(** [.key]: the member of an object; an array is unwrapped one level
    first; anything else, or a missing key, gives nothing. *)
Definition path_key (key : string) (j : json) : list json :=
  match j with
  | JObj members => option_list (member key members)
  | JArr items =>
      flat_map (fun i => match i with
                         | JObj members => option_list (member key members)
                         | _ => []
                         end) items
  | _ => []
  end.

(** [[*]]: the items of an array; any other value counts as its own
    single item. *)
Definition path_any_item (j : json) : list json :=
  match j with
  | JArr items => items
  | _ => [j]
  end.

(** [jsonb_path_query_array(body, '$.docid[*].<key>')]. *)
Definition path_docid (key : string) (body : json) : list json :=
  flat_map (path_key key) (flat_map path_any_item (path_key "docid" body)).

(** *** The text [jsonb] writes *)

(** One character inside a string literal: the quote, the backslash and
    the control characters are escaped, everything else is written as it
    is. *)
Definition escape_json_char (c : ascii) : string :=
  let n := N_of_ascii c in
  if Ascii.eqb c dquote then String backslash (String dquote EmptyString)
  else if Ascii.eqb c backslash then String backslash (String backslash EmptyString)
  else if (n =? 8)%N then String backslash "b"
  else if (n =? 12)%N then String backslash "f"
  else if (n =? 10)%N then String backslash "n"
  else if (n =? 13)%N then String backslash "r"
  else if (n =? 9)%N then String backslash "t"
  else if (n <? 32)%N then
    String backslash
           ("u00" +:+ String (hex_digit (n / 16)) (String (hex_digit (n mod 16)) EmptyString))
  else String c EmptyString.

Fixpoint escape_json (s : string) : string :=
  match s with
  | EmptyString => EmptyString
  | String c rest => escape_json_char c +:+ escape_json rest
  end.

Definition quote_json (s : string) : string :=
  String dquote (escape_json s +:+ String dquote EmptyString).

(** The number of bytes of a string in UTF-8: two for a character from
    128 on. *)
Fixpoint utf8_length (s : string) : N :=
  match s with
  | EmptyString => 0%N
  | String c rest => ((if (N_of_ascii c <? 128)%N then 1 else 2) + utf8_length rest)%N
  end.

(** The order [jsonb] keeps the keys of an object in: shorter keys
    first, keys of the same length by their bytes. *)
Definition key_before (a b : string) : bool :=
  ((utf8_length a <? utf8_length b)%N
   || ((utf8_length a =? utf8_length b)%N && String.ltb a b))%bool.

(** A member put at its place among members already in order; a key
    that is there already gets the new value. *)
Fixpoint insert_member (kv : string * string) (sorted : list (string * string))
  : list (string * string) :=
  match sorted with
  | [] => [kv]
  | kv' :: rest =>
      if String.eqb (fst kv) (fst kv') then kv :: rest
      else if key_before (fst kv) (fst kv') then kv :: sorted
      else kv' :: insert_member kv rest
  end.

Definition jsonb_members (members : list (string * string)) : list (string * string) :=
  fold_left (fun sorted kv => insert_member kv sorted) members [].

(** The text of a [jsonb] value: items separated by [", "], keys and
    values by [": "], keys in the order above. *)
Fixpoint jsonb_out (j : json) : string :=
  match j with
  | JNull => "null"
  | JBool true => "true"
  | JBool false => "false"
  | JNum n => dumps_int n
  | JStr s => quote_json s
  | JArr items => "[" +:+ Py.join ", " (map jsonb_out items) +:+ "]"
  | JObj members =>
      "{" +:+ Py.join ", "
                (map (fun kt => quote_json (fst kt) +:+ ": " +:+ snd kt)
                     (jsonb_members (map (fun kv => (fst kv, jsonb_out (snd kv))) members)))
          +:+ "}"
  end.

(** One item of [jsonb_array_elements_text]: a string gives its
    content, [null] gives SQL NULL, anything else the text [jsonb]
    writes for it. *)
Definition element_text (j : json) : option string :=
  match j with
  | JStr s => Some s
  | JNull => None
  | _ => Some (jsonb_out j)
  end.

(** Two set-returning functions in one select list advance in lockstep;
    the shorter one is padded with NULL. *)
Fixpoint lockstep (a b : list (option string)) : list (option string * option string) :=
  match a with
  | [] => map (fun y => (None, y)) b
  | x :: a' =>
      match b with
      | [] => map (fun x' => (x', None)) a
      | y :: b' => (x, y) :: lockstep a' b'
      end
  end.

End JsonbOps.
Export JsonbOps.

(** ** The record store *)

Module Store.

(** Modelled from the spec: the [RefData] model class ([main/models.py]
    is not part of the sources at hand).  One row of [api_ref_data]:
    the primary key Django adds, the two string keys, the Relaton
    document and the mapping from format name to pre-rendered string. *)
Record RefData : Type := mkRefData {
  pk : Z;
  dataset : string;
  ref : string;
  body : json;
  representations : gmap string string
}.

(** A query object [Q]: a condition on rows. *)
Definition Q : Type := RefData -> bool.

Definition Q_and (a b : Q) : Q := fun r => (a r && b r)%bool.

Definition upper_char (c : ascii) : ascii :=
  let n := N_of_ascii c in
  if ((97 <=? n) && (n <=? 122))%N%bool then ascii_of_N (n - 32) else c.

Fixpoint upper (s : string) : string :=
  match s with
  | EmptyString => EmptyString
  | String c rest => String (upper_char c) (upper rest)
  end.

(** The [iexact] lookup: [UPPER(column) = UPPER(value)]. *)
Definition iexact (column value : string) : bool :=
  String.eqb (upper column) (upper value).

Definition dataset__iexact (value : string) : Q := fun r => iexact (dataset r) value.
Definition ref__iexact (value : string) : Q := fun r => iexact (ref r) value.

(** What was sent to the store: a select with the condition of a
    [filter] or of a [get], or a raw statement with its parameters. *)
Inductive statement : Type :=
| SelectFilter (condition : Q)
| SelectGet (condition : Q)
| ExecuteRaw (sql : string) (params : list string).

(** The table and the statements issued so far, oldest first. *)
Record world : Type := mkWorld {
  api_ref_data : list RefData;
  issued : list statement
}.

Definition issue (st : statement) (w : world) : world :=
  {| api_ref_data := api_ref_data w; issued := issued w ++ [st] |}.

(** Computations that may raise and may talk to the store. *)
Definition M (A : Type) : Type := world -> outcome A * world.

Definition ret {A : Type} (a : A) : M A := fun w => (Return a, w).

Definition raise {A : Type} (e : exception) : M A := fun w => (Raise e, w).

Definition bind {A B : Type} (m : M A) (k : A -> M B) : M B :=
  fun w =>
    match m w with
    | (Return a, w') => k a w'
    | (Raise e, w') => (Raise e, w')
    end.

(** The clauses of a [try] statement are tried in order.  A clause whose
    expression is not a class makes the interpreter raise [TypeError] as
    soon as it is reached; clauses after a match are not looked at. *)
Fixpoint handle {A : Type} (e : exception) (clauses : list (except_target * M A)) : M A :=
  match clauses with
  | [] => raise e
  | (Class c, handler) :: rest =>
      if exc_class_eqb (class_of e) c then handler else handle e rest
  | (Instance _, _) :: _ => raise catching_non_class
  end.

Definition try_except {A : Type} (block : M A) (clauses : list (except_target * M A)) : M A :=
  fun w =>
    match block w with
    | (Return a, w') => (Return a, w')
    | (Raise e, w') => handle e clauses w'
    end.

(** *** The statements the store understands *)

Definition select_where : string := "SELECT * FROM api_ref_data WHERE ".
Definition containment_test : string := "body @> %s::jsonb".

(** How the text after [WHERE] reads. *)
Inductive condition : Type :=
| NoCondition
| ContainsAny (placeholders : nat)
| OtherCondition.

(** The number of tests in [test OR test OR ... OR test]. *)
Fixpoint read_tests (fuel : nat) (s : string) : option nat :=
  match fuel with
  | O => None
  | S fuel' =>
      match expect containment_test s with
      | Some EmptyString => Some 1
      | Some rest =>
          match expect " OR " rest with
          | Some rest' =>
              match read_tests fuel' rest' with
              | Some n => Some (S n)
              | None => None
              end
          | None => None
          end
      | None => None
      end
  end.

Definition read_condition (s : string) : condition :=
  match s with
  | EmptyString => NoCondition
  | _ =>
      match read_tests (String.length s) s with
      | Some n => ContainsAny n
      | None => OtherCondition
      end
  end.

Fixpoint read_params (params : list string) : option (list json) :=
  match params with
  | [] => Some []
  | p :: rest =>
      match jsonb_in p, read_params rest with
      | Some j, Some js => Some (j :: js)
      | _, _ => None
      end
  end.

(** Running a raw statement against the table.  A [SELECT * ... WHERE]
    followed by nothing is a syntax error; followed by a chain of
    containment tests it returns the rows whose body contains the
    document bound to one of the placeholders, and raises [DataError]
    when a parameter is no text of a [jsonb] value.  Other statements
    are not part of this model and are refused. *)
Definition run_raw (sql : string) (params : list string) (table : list RefData)
  : outcome (list RefData) :=
  match expect select_where sql with
  | Some cond =>
      match read_condition cond with
      | NoCondition => Raise (ProgrammingError "syntax error at end of input")
      | ContainsAny n =>
          if Nat.eqb n (List.length params) then
            match read_params params with
            | Some patterns =>
                Return (List.filter (fun r => existsb (jsonb_contains (body r)) patterns) table)
            | None => Raise (DataError "invalid input syntax for type json")
            end
          else Raise (ProgrammingError "wrong number of bound parameters")
      | OtherCondition => Raise (ProgrammingError "statement not understood")
      end
  | None => Raise (ProgrammingError "statement not understood")
  end.

(** *** [RefData.objects] *)

(** A raw query set: nothing is sent until it is iterated. *)
Record RawQuerySet : Type := mkRawQuerySet {
  raw_query : string;
  raw_params : list string
}.

Module RefDataManager.

(** [RefDataManager.filter(q)], evaluated. *)
Definition filter (q : Q) : M (list RefData) :=
  fun w => (Return (List.filter q (api_ref_data w)), issue (SelectFilter q) w).

(** [RefDataManager.get(q)]: the single matching row, or
    [DoesNotExist], or [MultipleObjectsReturned]. *)
Definition get (q : Q) : M RefData :=
  fun w =>
    let w' := issue (SelectGet q) w in
    match List.filter q (api_ref_data w) with
    | [] => (Raise DoesNotExist, w')
    | [r] => (Return r, w')
    | _ :: _ :: _ => (Raise MultipleObjectsReturned, w')
    end.

(** [RefDataManager.raw(query, params)]. *)
Definition raw (query : string) (params : list string) : RawQuerySet :=
  {| raw_query := query; raw_params := params |}.

End RefDataManager.

(** Iterating a raw query set sends its statement. *)
Definition iterate (qs : RawQuerySet) : M (list RefData) :=
  fun w =>
    (run_raw (raw_query qs) (raw_params qs) (api_ref_data w),
     issue (ExecuteRaw (raw_query qs) (raw_params qs)) w).

End Store.
Export Store.

Notation "'let*' x ':=' m 'in' k" := (Store.bind m (fun x => k))
  (at level 10, x name, m at level 100, k at level 200).

(** ** [main/indexed.py] *)

Module Indexed.

(** [repr(Q)]: the text of the class object [Q] itself. *)
Definition repr_Q : string := "<class 'django.db.models.query_utils.Q'>".

(** What [get_indexed_ref] hands back: a dict for [relaton], an XML
    string for [bibxml]. *)
Inductive citation : Type :=
| RelatonDict (body : json)
| BibxmlString (xml : string).

(** [list_refs], lines 17-18. *)
Definition list_refs (dataset_id : string) : M (list RefData) :=
  RefDataManager.filter (dataset__iexact dataset_id).

(** [search_refs_relaton_struct], lines 33-46: one containment test per
    pattern, joined by [OR]; the patterns travel as parameters, each as
    its JSON text. *)
Definition search_refs_relaton_struct (objs : list json) : RawQuerySet :=
  let subqueries := map (fun _ : json => "body @> %s::jsonb") objs in
  let query := Py.percent_s "SELECT * FROM api_ref_data WHERE %s" (Py.join " OR " subqueries) in
  RefDataManager.raw query (map dumps objs).

(** [get_indexed_ref_by_query], lines 90-125.  The second [except]
    clause is written with a call, [RefData.MultipleObjectsReturned()]. *)
Definition get_indexed_ref_by_query (dataset_id : string) (query : Q) (format : string)
  : M citation :=
  if negb (Py.str_in format ["relaton"; "bibxml"]) then
    raise (ValueError "Unknown citation format requested")
  else
    let* result :=
      try_except
        (RefDataManager.get (Q_and query (dataset__iexact dataset_id)))
        [ (Class DoesNotExist_class,
           raise (RefNotFoundError "Cannot find matching reference in given dataset" repr_Q));
          (Instance MultipleObjectsReturned,
           raise (RefNotFoundError "Multiple references match query in given dataset" repr_Q)) ]
    in
    if String.eqb format "relaton" then
      ret (RelatonDict (body result))
    else
      match representations result !! "bibxml" with
      | Some bibxml_repr =>
          if Py.str_truthy bibxml_repr then ret (BibxmlString bibxml_repr)
          else raise (RefNotFoundError
                        "BibXML representation not found for requested reference" repr_Q)
      | None =>
          raise (RefNotFoundError
                   "BibXML representation not found for requested reference" repr_Q)
      end.

(** [get_indexed_ref], lines 78-87. *)
Definition get_indexed_ref (dataset_id ref : string) (format : string) : M citation :=
  get_indexed_ref_by_query dataset_id (ref__iexact ref) format.

(** The rows a lookup selects: those that satisfy [query] and whose
    dataset equals [dataset_id] up to case. *)
Definition matching (table : list RefData) (dataset_id : string) (query : Q) : list RefData :=
  List.filter (Q_and query (dataset__iexact dataset_id)) table.

Definition not_found_message : string :=
  "Cannot find matching reference in given dataset".
Definition no_bibxml_message : string :=
  "BibXML representation not found for requested reference".

(** *** [list_doctypes]

    Lines 49-75.  The statement is fixed; it is read here clause by
    clause.  The [order_by('?')] in front of [raw] does not reach the
    statement. *)

(** A row of the inner select: the record's id, one [doctype] and one
    [sample_id]; either may be NULL. *)
Record item : Type := mkItem {
  item_id : Z;
  doctype : option string;
  sample_id : option string
}.

(** The inner select for one record: the texts of [$.docid[*].type] and
    of [$.docid[*].id], side by side. *)
Definition items_of (r : RefData) : list item :=
  map (fun p => mkItem (pk r) (fst p) (snd p))
      (lockstep (map element_text (path_docid "type" (body r)))
                (map element_text (path_docid "id" (body r)))).

Definition inner_select (table : list RefData) : list item :=
  flat_map items_of table.

(** [select distinct on (doctype) ...] without [order by]: one row is
    kept for every value of [doctype] (NULL counts as a value), and
    which one is up to the store. *)
Definition distinct_on_doctype (rows kept : list item) : Prop :=
  List.NoDup (map doctype kept)
  /\ (forall i, In i kept -> In i rows)
  /\ (forall i, In i rows -> In (doctype i) (map doctype kept)).

Definition option_string_eqb (a b : option string) : bool :=
  match a, b with
  | Some x, Some y => String.eqb x y
  | None, None => true
  | _, _ => false
  end.

(** One way for the store to do it: keep the first row met for each
    value. *)
Fixpoint keep_first (seen : list (option string)) (rows : list item) : list item :=
  match rows with
  | [] => []
  | i :: rest =>
      if existsb (option_string_eqb (doctype i)) seen then keep_first seen rest
      else i :: keep_first (doctype i :: seen) rest
  end.

(** [list_doctypes()] may return [result] over [table]. *)
Definition list_doctypes_returns (table : list RefData)
           (result : list (option string * option string)) : Prop :=
  exists kept,
    distinct_on_doctype (inner_select table) kept
    /\ result = map (fun i => (doctype i, sample_id i)) kept.

(** [list_doctypes()] with a store that keeps first rows. *)
Definition list_doctypes (table : list RefData) : list (option string * option string) :=
  map (fun i => (doctype i, sample_id i)) (keep_first [] (inner_select table)).

End Indexed.
Export Indexed.

(** ** The xml2rfc serializer *)

Module Serializer.

(** The object model the tests build their fixtures from
    ([bib_models]). *)
Record LocalizedString : Type := mkLocalizedString {
  ls_content : string;
  ls_language : string
}.

Record TitledText : Type := mkTitledText {
  content : string;
  language : string;
  script : string;
  text_format : string
}.

Record DocID : Type := mkDocID { docid_id : string; docid_type : string }.
Record Date : Type := mkDate { date_type : string; date_value : string }.
Record Link : Type := mkLink { link_content : string; link_type : string }.

Record PersonName : Type := mkPersonName {
  initial : list LocalizedString;
  surname : LocalizedString;
  completename : LocalizedString
}.

Record Organization : Type := mkOrganization { org_name : string }.
Record Person : Type := mkPerson { person_name : PersonName }.

Record Contributor : Type := mkContributor {
  organization : option Organization;
  person : option Person;
  role : option string
}.

Unset Elimination Schemes.
Inductive BibliographicItem : Type := mkBibliographicItem {
  item_ident : option string;
  title : list TitledText;
  docid : list DocID;
  formattedref : option TitledText;
  contributor : list Contributor;
  date : list Date;
  relation : list (string * BibliographicItem);
  item_type : option string;
  docnumber : option string;
  link : list Link
}.
Set Elimination Schemes.

(** An [lxml] element: tag, attributes, text, children. *)
Inductive Element : Type :=
| Elem (tag : string) (attrib : list (string * string)) (text : string)
       (children : list Element).

Definition tag_of (e : Element) : string :=
  match e with Elem t _ _ _ => t end.

Definition children_of (e : Element) : list Element :=
  match e with Elem _ _ _ c => c end.

Definition map_outcome {A B : Type} (f : A -> outcome B) : list A -> outcome (list B) :=
  fix go (l : list A) : outcome (list B) :=
    match l with
    | [] => Return []
    | a :: rest =>
        match f a with
        | Raise e => Raise e
        | Return b =>
            match go rest with
            | Raise e => Raise e
            | Return bs => Return (b :: bs)
            end
        end
    end.

(** Modelled from the spec: the role table of [create_author]
    ([xml2rfc_compat/serializer.py] is not part of the sources at hand),
    with the roles the specification names. *)
Definition recognized_roles : list string := ["author"; "editor"; "publisher"].

Definition text_element (tag value : string) : Element := Elem tag [] value [].

(** Modelled from the spec: [create_author] of
    [xml2rfc_compat/serializer.py].  The role must be set and
    recognized; exactly one of organization and person must be
    populated; the element carries the role and an [organization] or a
    [person] subtree. *)
Definition create_author (c : Contributor) : outcome Element :=
  match role c with
  | None => Raise (ValueError "missing role / incompatible role")
  | Some r =>
      if negb (Py.str_in r recognized_roles) then
        Raise (ValueError "missing role / incompatible role")
      else
        match organization c, person c with
        | None, None => Raise (ValueError "missing person or organization")
        | Some org, None =>
            Return (Elem "author" [("role", r)] EmptyString
                         [Elem "organization" [] EmptyString
                               [text_element "name" (org_name org)]])
        | None, Some p =>
            let n := person_name p in
            Return (Elem "author" [("role", r)] EmptyString
                         [Elem "person" [] EmptyString
                               (map (fun i => text_element "initial" (ls_content i)) (initial n)
                                ++ [text_element "surname" (ls_content (surname n));
                                    text_element "completename" (ls_content (completename n))])])
        | Some _, Some _ =>
            Raise (ValueError "person and organization are mutually exclusive")
        end
  end.

(** Modelled from the spec: what [create_reference] does with an item
    that has no title of its own but has relations.  The specification
    leaves it open: the reference may take its title from a related
    item, or the item is refused.  The serializer's test
    [test_fail_create_reference_if_missing_titles] expects the refusal. *)
Inductive title_policy : Type :=
| FallbackThroughRelation
| OwnTitleOnly.

(** The first title found among the related items. *)
Definition relation_title (item : BibliographicItem) : option TitledText :=
  match flat_map (fun rel => title (snd rel)) (relation item) with
  | t :: _ => Some t
  | [] => None
  end.

(** Modelled from the spec: the titles [create_reference] writes.  With
    neither title nor relation the item is refused; with relations only,
    the fallback takes the first title found among the related items,
    and the item is refused when they have none. *)
Definition reference_titles (policy : title_policy) (item : BibliographicItem)
  : outcome (list TitledText) :=
  match title item with
  | _ :: _ => Return (title item)
  | [] =>
      match relation item with
      | [] => Raise (ValueError "missing titles and relations")
      | _ :: _ =>
          match policy, relation_title item with
          | FallbackThroughRelation, Some t => Return [t]
          | _, _ => Raise (ValueError "missing titles")
          end
      end
  end.

(** Modelled from the spec: [create_reference] of
    [xml2rfc_compat/serializer.py].  The titles are settled first; the
    children are the titles, the authors built from the contributors,
    the dates, and one nested reference per relation, each builder
    raising for itself. *)
Fixpoint create_reference (policy : title_policy) (item : BibliographicItem)
  : outcome Element :=
  match reference_titles policy item with
  | Raise e => Raise e
  | Return titles =>
      match map_outcome create_author (contributor item) with
      | Raise e => Raise e
      | Return authors =>
          match map_outcome (fun rel => match rel with
                                        | (_, nested) => create_reference policy nested
                                        end) (relation item) with
          | Raise e => Raise e
          | Return nested =>
              Return (Elem "reference"
                           match item_ident item with
                           | Some anchor => [("anchor", anchor)]
                           | None => []
                           end
                           EmptyString
                           (map (fun t => text_element "title" (content t)) titles
                            ++ authors
                            ++ map (fun d => Elem "date" [("type", date_type d)]
                                                  (date_value d) []) (date item)
                            ++ nested))
          end
      end
  end.

(** *** The fixtures of [XML2RFCTestCase.setUp] *)

Definition contributor_organization : Contributor :=
  {| organization := Some {| org_name := "Internet Engineering Task Force" |};
     person := None;
     role := Some "publisher" |}.

Definition contributor_person : Contributor :=
  {| organization := None;
     person := Some {| person_name :=
                         {| initial := [mkLocalizedString "Mr" "en"];
                            surname := mkLocalizedString "Cerf" "en";
                            completename := mkLocalizedString "Mr Cerf" "en" |} |};
     role := Some "author" |}.

Definition fixture_title : TitledText :=
  {| content := "title"; language := "en"; script := "Latn"; text_format := "text / plain" |}.

Definition related_bibitem : BibliographicItem :=
  {| item_ident := Some "test_id";
     title := [fixture_title];
     docid := [mkDocID "RFC1917" "RFC"];
     formattedref := None;
     contributor := [];
     date := [mkDate "published" "1996-02"];
     relation := [];
     item_type := Some "standard";
     docnumber := Some "RFC1917";
     link := [mkLink
                "https://raw.githubusercontent.com/relaton/relaton-data-ietf/master/data/reference.RFC.1917.xml"
                "xml"] |}.

Definition bibitem : BibliographicItem :=
  {| item_ident := Some "ref_01";
     title := [fixture_title];
     docid := [mkDocID "ref_01" "test_dataset_01"];
     formattedref := Some {| content := "BCP4"; language := "en"; script := "Latn";
                             text_format := "text/plain" |};
     contributor := [contributor_organization];
     date := [mkDate "published" "1996-02"];
     relation := [("includes", related_bibitem)];
     item_type := None;
     docnumber := None;
     link := [] |}.

(** [del data["title"]]. *)
Definition without_title (i : BibliographicItem) : BibliographicItem :=
  {| item_ident := item_ident i; title := []; docid := docid i;
     formattedref := formattedref i; contributor := contributor i; date := date i;
     relation := relation i; item_type := item_type i; docnumber := docnumber i;
     link := link i |}.

(** [del data["relation"]]. *)
Definition without_relation (i : BibliographicItem) : BibliographicItem :=
  {| item_ident := item_ident i; title := title i; docid := docid i;
     formattedref := formattedref i; contributor := contributor i; date := date i;
     relation := []; item_type := item_type i; docnumber := docnumber i;
     link := link i |}.

Definition with_role (r : option string) (c : Contributor) : Contributor :=
  {| organization := organization c; person := person c; role := r |}.

(** A contributor is valid when its role is recognized and exactly one
    of organization and person is populated. *)
Definition populated {A : Type} (o : option A) : bool :=
  match o with Some _ => true | None => false end.

Definition valid_contributor (c : Contributor) : bool :=
  match role c with
  | Some r =>
      (Py.str_in r recognized_roles
       && xorb (populated (organization c)) (populated (person c)))%bool
  | None => false
  end.

Definition has_child (tag : string) (e : Element) : bool :=
  existsb (fun child => String.eqb (tag_of child) tag) (children_of e).

(** [contributor.organization = None] and [contributor.person = None]. *)
Definition without_organization (c : Contributor) : Contributor :=
  {| organization := None; person := person c; role := role c |}.

Definition without_person (c : Contributor) : Contributor :=
  {| organization := organization c; person := None; role := role c |}.




End Serializer.
Export Serializer.

(** ** Measures and shapes used when reading JSON text back *)

Module JsonText.

(** One member of a dict as [json.dumps] writes it. *)
Definition dumps_member (kv : string * json) : string :=
  dumps_str (fst kv) +:+ ": " +:+ dumps (snd kv).

(** [s] does not go on with a digit: an integer literal ends here. *)
Definition no_digit_head (s : string) : Prop :=
  match s with
  | String c _ => digit_of c = None
  | EmptyString => True
  end.

(** [s] starts with a character that satisfies [p]. *)
Definition head_is (p : ascii -> bool) (s : string) : Prop :=
  match s with
  | String c _ => p c = true
  | EmptyString => False
  end.

(** The first character of an integer literal. *)
Definition number_head (c : ascii) : bool :=
  (Ascii.eqb c "-" || match digit_of c with Some _ => true | None => false end)%bool.

(** The first character of a value is no white space and closes nothing. *)
Definition value_head (c : ascii) : bool :=
  (negb (is_ws c) && negb (Ascii.eqb c "]") && negb (Ascii.eqb c "}"))%bool.

(** Nested calls needed to read a document back. *)
Fixpoint json_size (j : json) : nat :=
  match j with
  | JArr items => S (fold_right (fun i n => S (json_size i + n)) 0 items)
  | JObj members =>
      S (fold_right (fun kv n => match kv with (_, v) => S (json_size v + n) end) 0 members)
  | _ => 1
  end.

(** [j] is read back from its text, whatever follows the text, as long
    as no digit follows. *)
Definition reads_back (j : json) : Prop :=
  forall (fuel : nat) (rest : string),
    json_size j <= fuel -> no_digit_head rest ->
    read_value fuel (dumps j +:+ rest) = Some (j, rest).

End JsonText.
Export JsonText.

(** ** The [docid] entries of a record, as the data model describes them *)

Module Docid.

(** The items of the body's [docid] array. *)
Definition docid_entries (body : json) : list json :=
  match body with
  | JObj members =>
      match member "docid" members with
      | Some (JArr entries) => entries
      | _ => []
      end
  | _ => []
  end.

(** The string an entry holds under [key], if any. *)
Definition entry_field (key : string) (entry : json) : option string :=
  match entry with
  | JObj members =>
      match member key members with
      | Some (JStr s) => Some s
      | _ => None
      end
  | _ => None
  end.

Definition complete_entry (entry : json) : bool :=
  match entry_field "type" entry, entry_field "id" entry with
  | Some _, Some _ => true
  | _, _ => false
  end.

(** The body is an object whose [docid], when present, is an array of
    entries that each carry a string [type] and a string [id]. *)
Definition complete_docids (body : json) : bool :=
  match body with
  | JObj members =>
      match member "docid" members with
      | None => true
      | Some (JArr entries) => forallb complete_entry entries
      | Some _ => false
      end
  | _ => false
  end.

(** Some record's [docid] has an entry of type [t]. *)
Definition type_occurs (table : list RefData) (t : string) : Prop :=
  exists r entry,
    In r table /\ In entry (docid_entries (body r)) /\ entry_field "type" entry = Some t.

(** Some record's [docid] has an entry of type [t] and id [i]. *)
Definition docid_occurs (table : list RefData) (t i : string) : Prop :=
  exists r entry,
    In r table /\ In entry (docid_entries (body r))
    /\ entry_field "type" entry = Some t /\ entry_field "id" entry = Some i.

(** A record whose first [docid] entry has no type. *)
Definition untyped_first : RefData :=
  mkRefData 7 "misc" "B"
            (JObj [("docid", JArr [JObj [("id", JStr "A")];
                                   JObj [("type", JStr "T"); ("id", JStr "B")]])])
            ∅.

End Docid.
Export Docid.

(** ** Sample data *)

Module Samples.

Definition rfc_body (number : string) : json :=
  JObj [("id", JStr ("RFC" +:+ number));
        ("docid", JArr [JObj [("type", JStr "RFC"); ("id", JStr ("RFC " +:+ number))];
                        JObj [("type", JStr "DOI");
                              ("id", JStr ("10.17487/RFC" +:+ number))]])].

Definition iso_body : json :=
  JObj [("id", JStr "ISO-9001");
        ("docid", JArr [JObj [("type", JStr "ISO"); ("id", JStr "ISO 9001")]])].

Definition rfc1917 : RefData :=
  mkRefData 1 "rfcs" "RFC1917" (rfc_body "1917")
            {[ "bibxml" := "<reference anchor='RFC1917'/>" ]}.

Definition rfc1918 : RefData :=
  mkRefData 2 "RFCs" "RFC1918" (rfc_body "1918") ∅.

(** A row whose pre-rendered [bibxml] is there but empty. *)
Definition rfc1919 : RefData :=
  mkRefData 3 "rfcs" "RFC1919" (rfc_body "1919") {[ "bibxml" := EmptyString ]}.

Definition iso9001 : RefData :=
  mkRefData 4 "iso" "ISO-9001" iso_body ∅.

Definition table : list RefData := [rfc1917; rfc1918; rfc1919; iso9001].

Definition fresh : world := mkWorld table [].

Definition any_row : Q := fun _ => true.

(** The pattern [{"docid": [{"type": t}]}]. *)
Definition doctype_pattern (t : string) : json :=
  JObj [("docid", JArr [JObj [("type", JStr t)]])].

(** The pattern [{"id": i}]. *)
Definition id_pattern (i : string) : json := JObj [("id", JStr i)].


End Samples.

(** ** Keys of rows and well-formed dicts *)

Module Keys.

(** The key a lookup compares: dataset and ref, both up to case. *)
Definition row_key (r : RefData) : string * string :=
  (upper (dataset r), upper (ref r)).

(** No two rows of the table share dataset and ref up to case. *)
Definition unique_keys (table : list RefData) : Prop :=
  List.NoDup (map row_key table).

Fixpoint unique_names (names : list string) : bool :=
  match names with
  | [] => true
  | n :: rest => (negb (existsb (String.eqb n) rest) && unique_names rest)%bool
  end.

(** No dict inside the document binds a key twice. *)
Fixpoint distinct_keys (j : json) : bool :=
  match j with
  | JArr items => forallb distinct_keys items
  | JObj members =>
      (unique_names (map fst members)
       && forallb (fun kv => match kv with (_, v) => distinct_keys v end) members)%bool
  | _ => true
  end.

End Keys.
Export Keys.

(** * Properties *)

(** ** The reference resolver *)

Section Resolver.

Variables (dataset_id : string) (query : Q) (w : world).

Lemma get_none :
  matching (api_ref_data w) dataset_id query = [] ->
  RefDataManager.get (Q_and query (dataset__iexact dataset_id)) w
  = (Raise DoesNotExist,
     issue (SelectGet (Q_and query (dataset__iexact dataset_id))) w).
Proof.
  unfold matching, RefDataManager.get. intros ->. reflexivity.
Qed.

Lemma get_one (r : RefData) :
  matching (api_ref_data w) dataset_id query = [r] ->
  RefDataManager.get (Q_and query (dataset__iexact dataset_id)) w
  = (Return r,
     issue (SelectGet (Q_and query (dataset__iexact dataset_id))) w).
Proof.
  unfold matching, RefDataManager.get. intros ->. reflexivity.
Qed.

Lemma get_many :
  2 <= List.length (matching (api_ref_data w) dataset_id query) ->
  RefDataManager.get (Q_and query (dataset__iexact dataset_id)) w
  = (Raise MultipleObjectsReturned,
     issue (SelectGet (Q_and query (dataset__iexact dataset_id))) w).
Proof.
  unfold matching, RefDataManager.get.
  destruct (List.filter _ _) as [|a [|b l]]; simpl; intros H; try lia.
  reflexivity.
Qed.

(** The rows selected are none, one, or at least two. *)
Lemma matching_cases :
  matching (api_ref_data w) dataset_id query = []
  \/ (exists r, matching (api_ref_data w) dataset_id query = [r])
  \/ 2 <= List.length (matching (api_ref_data w) dataset_id query).
Proof.
  destruct (matching _ _ _) as [|a [|b l]]; simpl; eauto.
  right. right. lia.
Qed.

Lemma supported_format (format : string) :
  Py.str_in format ["relaton"; "bibxml"] = true ->
  format = "relaton" \/ format = "bibxml".
Proof.
  unfold Py.str_in. simpl. rewrite orb_false_r.
  intros H. apply orb_true_iff in H as [H|H]; apply String.eqb_eq in H; auto.
Qed.

Lemma unsupported_format (format : string) :
  format <> "relaton" -> format <> "bibxml" ->
  Py.str_in format ["relaton"; "bibxml"] = false.
Proof.
  intros H1 H2. unfold Py.str_in. simpl.
  apply String.eqb_neq in H1, H2. rewrite H1, H2. reflexivity.
Qed.

(** With no matching row the lookup raises the not-found error. *)
Lemma lookup_none (format : string) :
  Py.str_in format ["relaton"; "bibxml"] = true ->
  matching (api_ref_data w) dataset_id query = [] ->
  get_indexed_ref_by_query dataset_id query format w
  = (Raise (RefNotFoundError not_found_message repr_Q),
     issue (SelectGet (Q_and query (dataset__iexact dataset_id))) w).
Proof.
  intros Hf Hm. unfold get_indexed_ref_by_query. rewrite Hf. simpl.
  unfold bind, try_except. rewrite (get_none Hm). reflexivity.
Qed.

(** With two or more matching rows the second [except] clause is
    reached, and its expression is an instance. *)
Lemma lookup_many (format : string) :
  Py.str_in format ["relaton"; "bibxml"] = true ->
  2 <= List.length (matching (api_ref_data w) dataset_id query) ->
  get_indexed_ref_by_query dataset_id query format w
  = (Raise catching_non_class,
     issue (SelectGet (Q_and query (dataset__iexact dataset_id))) w).
Proof.
  intros Hf Hm. unfold get_indexed_ref_by_query. rewrite Hf. simpl.
  unfold bind, try_except. rewrite (get_many Hm). reflexivity.
Qed.

Lemma lookup_one_relaton (r : RefData) :
  matching (api_ref_data w) dataset_id query = [r] ->
  get_indexed_ref_by_query dataset_id query "relaton" w
  = (Return (RelatonDict (body r)),
     issue (SelectGet (Q_and query (dataset__iexact dataset_id))) w).
Proof.
  intros Hm. unfold get_indexed_ref_by_query. simpl.
  unfold bind, try_except. rewrite (get_one _ Hm). reflexivity.
Qed.

Lemma lookup_one_bibxml (r : RefData) :
  matching (api_ref_data w) dataset_id query = [r] ->
  get_indexed_ref_by_query dataset_id query "bibxml" w
  = (match representations r !! "bibxml" with
     | Some xml =>
         if Py.str_truthy xml then Return (BibxmlString xml)
         else Raise (RefNotFoundError no_bibxml_message repr_Q)
     | None => Raise (RefNotFoundError no_bibxml_message repr_Q)
     end,
     issue (SelectGet (Q_and query (dataset__iexact dataset_id))) w).
Proof.
  intros Hm. unfold get_indexed_ref_by_query. simpl.
  unfold bind, try_except. rewrite (get_one _ Hm).
  destruct (representations r !! "bibxml") as [xml|]; [|reflexivity].
  destruct (Py.str_truthy xml); reflexivity.
Qed.

End Resolver.

(** C4.  A format other than [relaton] and [bibxml] makes
    [get_indexed_ref_by_query] raise [ValueError] at once: the world comes
    back as it went in, so no statement was issued to the store. *)
Theorem unknown_format_raises_before_query
        (dataset_id : string) (query : Q) (format : string) (w : world) :
  format <> "relaton" -> format <> "bibxml" ->
  get_indexed_ref_by_query dataset_id query format w
  = (Raise (ValueError "Unknown citation format requested"), w).
Proof.
  intros H1 H2. unfold get_indexed_ref_by_query.
  rewrite (unsupported_format _ H1 H2). reflexivity.
Qed.

Lemma unknown_format_raises_before_query_witness :
  get_indexed_ref_by_query "rfcs" (ref__iexact "RFC1917") "xyz" Samples.fresh
  = (Raise (ValueError "Unknown citation format requested"), Samples.fresh)
  /\ issued Samples.fresh = [].
Proof.
  split.
  - apply (unknown_format_raises_before_query "rfcs" (ref__iexact "RFC1917") "xyz");
      discriminate.
  - reflexivity.
Defined.

(** C2.  When exactly one row has the dataset and the ref asked for (up to
    case), the [relaton] format gives back the body of that row as it is
    stored. *)
Theorem relaton_returns_body (dataset_id ref : string) (w : world) (r : RefData) :
  matching (api_ref_data w) dataset_id (ref__iexact ref) = [r] ->
  fst (get_indexed_ref dataset_id ref "relaton" w) = Return (RelatonDict (body r))
  /\ fst (get_indexed_ref_by_query dataset_id (ref__iexact ref) "relaton" w)
     = Return (RelatonDict (body r)).
Proof.
  intros Hm. unfold get_indexed_ref.
  rewrite (lookup_one_relaton _ _ _ _ Hm). split; reflexivity.
Qed.

Lemma relaton_returns_body_witness :
  matching (api_ref_data Samples.fresh) "RFCS" (ref__iexact "rfc1918") = [Samples.rfc1918]
  /\ fst (get_indexed_ref "RFCS" "rfc1918" "relaton" Samples.fresh)
     = Return (RelatonDict (Samples.rfc_body "1918")).
Proof.
  split.
  - reflexivity.
  - apply (relaton_returns_body "RFCS" "rfc1918" Samples.fresh Samples.rfc1918).
    reflexivity.
Defined.

(** Every [RefNotFoundError] the lookup raises carries [repr_Q]. *)
Lemma raised_query_repr (dataset_id : string) (query : Q) (format : string) (w : world)
      (message query_repr : string) :
  fst (get_indexed_ref_by_query dataset_id query format w)
  = Raise (RefNotFoundError message query_repr) ->
  query_repr = repr_Q.
Proof.
  destruct (Py.str_in format ["relaton"; "bibxml"]) eqn:Hf.
  - destruct (matching_cases dataset_id query w) as [Hm | [[r Hm] | Hm]].
    + rewrite (lookup_none _ _ _ _ Hf Hm). simpl. congruence.
    + destruct (supported_format _ Hf) as [-> | ->].
      * rewrite (lookup_one_relaton _ _ _ _ Hm). simpl. discriminate.
      * rewrite (lookup_one_bibxml _ _ _ _ Hm). simpl.
        destruct (representations r !! "bibxml") as [xml|]; [|congruence].
        destruct (Py.str_truthy xml); [discriminate | congruence].
    + rewrite (lookup_many _ _ _ _ Hf Hm). simpl. discriminate.
  - unfold get_indexed_ref_by_query. rewrite Hf. simpl. discriminate.
Qed.

(** C9.  The query text attached to a [RefNotFoundError] is [repr] of the
    class [Q], a constant: two failing calls, whatever their dataset ids,
    queries, formats and tables, carry the same text. *)
Theorem error_query_repr_is_constant
        (dataset1 dataset2 : string) (query1 query2 : Q) (format1 format2 : string)
        (w1 w2 : world) (message1 message2 repr1 repr2 : string) :
  fst (get_indexed_ref_by_query dataset1 query1 format1 w1)
  = Raise (RefNotFoundError message1 repr1) ->
  fst (get_indexed_ref_by_query dataset2 query2 format2 w2)
  = Raise (RefNotFoundError message2 repr2) ->
  repr1 = repr_Q /\ repr2 = repr_Q /\ repr1 = repr2.
Proof.
  intros H1 H2.
  apply raised_query_repr in H1. apply raised_query_repr in H2.
  subst. auto.
Qed.

Lemma error_query_repr_is_constant_witness :
  fst (get_indexed_ref_by_query "rfcs" (ref__iexact "RFC0001") "relaton" Samples.fresh)
  = Raise (RefNotFoundError not_found_message repr_Q)
  /\ fst (get_indexed_ref_by_query "RFCs" (ref__iexact "rfc1918") "bibxml" Samples.fresh)
     = Raise (RefNotFoundError no_bibxml_message repr_Q)
  /\ repr_Q = repr_Q.
Proof.
  assert (H1 : fst (get_indexed_ref_by_query "rfcs" (ref__iexact "RFC0001") "relaton"
                                             Samples.fresh)
               = Raise (RefNotFoundError not_found_message repr_Q)) by reflexivity.
  assert (H2 : fst (get_indexed_ref_by_query "RFCs" (ref__iexact "rfc1918") "bibxml"
                                             Samples.fresh)
               = Raise (RefNotFoundError no_bibxml_message repr_Q)) by reflexivity.
  split; [exact H1 | split; [exact H2 |]].
  exact (proj2 (proj2 (error_query_repr_is_constant _ _ _ _ _ _ _ _ _ _ _ _ H1 H2))).
Defined.

(** C1.  The call that shows the slip of line 110: in the sample table
    three rows of the dataset match, so [get] raises
    [MultipleObjectsReturned]; the first [except] clause does not match
    and the second is written with a call,
    [except RefData.MultipleObjectsReturned():], so the interpreter
    raises [TypeError] there.  The handler under it, which raises
    [RefNotFoundError] with the message for several matches, does not
    run: the call ends with no [RefNotFoundError] at all, and no
    ambiguous-reference error reaches the caller. *)
Theorem ambiguous_lookup_raises_type_error :
  List.length (matching (api_ref_data Samples.fresh) "rfcs" Samples.any_row) = 3
  /\ RefDataManager.get (Q_and Samples.any_row (dataset__iexact "rfcs")) Samples.fresh
     = (Raise MultipleObjectsReturned,
        issue (SelectGet (Q_and Samples.any_row (dataset__iexact "rfcs"))) Samples.fresh)
  /\ fst (get_indexed_ref_by_query "rfcs" Samples.any_row "relaton" Samples.fresh)
     = Raise (TypeError "catching classes that do not inherit from BaseException is not allowed")
  /\ fst (get_indexed_ref_by_query "rfcs" Samples.any_row "bibxml" Samples.fresh)
     = Raise (TypeError "catching classes that do not inherit from BaseException is not allowed")
  /\ ~ (exists message query_repr,
           fst (get_indexed_ref_by_query "rfcs" Samples.any_row "relaton" Samples.fresh)
           = Raise (RefNotFoundError message query_repr)).
Proof.
  split; [reflexivity | split; [reflexivity | split; [reflexivity | split; [reflexivity |]]]].
  intros (message & query_repr & H). vm_compute in H. discriminate H.
Qed.

(** The two failures of a lookup with a supported format: with no
    matching row it fails with [RefNotFoundError] and the not-found
    message; with two or more matching rows it fails as well, with an
    error that is not that not-found error, and no citation is
    returned. *)
Lemma lookup_failures (dataset_id : string) (query : Q) (format : string) (w : world) :
  format = "relaton" \/ format = "bibxml" ->
  (matching (api_ref_data w) dataset_id query = [] ->
   fst (get_indexed_ref_by_query dataset_id query format w)
   = Raise (RefNotFoundError not_found_message repr_Q))
  /\ (2 <= List.length (matching (api_ref_data w) dataset_id query) ->
      exists e,
        fst (get_indexed_ref_by_query dataset_id query format w) = Raise e
        /\ forall query_repr, e <> RefNotFoundError not_found_message query_repr).
Proof.
  intros Hformat.
  assert (Hf : Py.str_in format ["relaton"; "bibxml"] = true)
    by (destruct Hformat as [-> | ->]; reflexivity).
  split; intros Hm.
  - rewrite (lookup_none _ _ _ _ Hf Hm). reflexivity.
  - rewrite (lookup_many _ _ _ _ Hf Hm). eexists. split; [reflexivity|].
    intros query_repr. discriminate.
Qed.

Lemma lookup_failures_witness :
  fst (get_indexed_ref_by_query "iso" (ref__iexact "ISO-1") "bibxml" Samples.fresh)
  = Raise (RefNotFoundError not_found_message repr_Q)
  /\ exists e,
      fst (get_indexed_ref_by_query "rfcs" Samples.any_row "bibxml" Samples.fresh) = Raise e
      /\ forall query_repr, e <> RefNotFoundError not_found_message query_repr.
Proof.
  split.
  - apply (proj1 (lookup_failures "iso" (ref__iexact "ISO-1") "bibxml" Samples.fresh
                                  (or_intror eq_refl))).
    reflexivity.
  - apply (proj2 (lookup_failures "rfcs" Samples.any_row "bibxml" Samples.fresh
                                  (or_intror eq_refl))).
    vm_compute. lia.
Defined.

(** C3, at a row whose [bibxml] entry is present and empty: the entry is
    there, yet the call raises the representation-not-found error instead
    of returning the stored string. *)
Lemma empty_bibxml_counterexample :
  matching (api_ref_data Samples.fresh) "rfcs" (ref__iexact "RFC1919") = [Samples.rfc1919]
  /\ representations Samples.rfc1919 !! "bibxml" = Some EmptyString
  /\ fst (get_indexed_ref "rfcs" "RFC1919" "bibxml" Samples.fresh)
     = Raise (RefNotFoundError no_bibxml_message repr_Q)
  /\ fst (get_indexed_ref "rfcs" "RFC1919" "bibxml" Samples.fresh)
     <> Return (BibxmlString EmptyString).
Proof.
  split; [reflexivity | split; [reflexivity | split; [reflexivity |]]].
  intros H. vm_compute in H. discriminate H.
Qed.

(** C3, as the code has it.  For a uniquely matched row, the [bibxml]
    format raises [RefNotFoundError] when the representations hold no
    [bibxml] entry or an empty one, and returns the stored string when
    the entry is a non-empty string. *)
Theorem bibxml_projection (dataset_id : string) (query : Q) (w : world) (r : RefData) :
  matching (api_ref_data w) dataset_id query = [r] ->
  (representations r !! "bibxml" = None ->
   fst (get_indexed_ref_by_query dataset_id query "bibxml" w)
   = Raise (RefNotFoundError no_bibxml_message repr_Q))
  /\ (representations r !! "bibxml" = Some EmptyString ->
      fst (get_indexed_ref_by_query dataset_id query "bibxml" w)
      = Raise (RefNotFoundError no_bibxml_message repr_Q))
  /\ (forall xml : string,
         representations r !! "bibxml" = Some xml -> xml <> EmptyString ->
         fst (get_indexed_ref_by_query dataset_id query "bibxml" w)
         = Return (BibxmlString xml)).
Proof.
  intros Hm. rewrite (lookup_one_bibxml _ _ _ _ Hm). simpl.
  split; [|split].
  - intros ->. reflexivity.
  - intros ->. reflexivity.
  - intros xml -> Hne. destruct xml; [congruence | reflexivity].
Qed.

Lemma bibxml_projection_witness :
  fst (get_indexed_ref_by_query "RFCs" (ref__iexact "rfc1918") "bibxml" Samples.fresh)
  = Raise (RefNotFoundError no_bibxml_message repr_Q)
  /\ fst (get_indexed_ref_by_query "rfcs" (ref__iexact "rfc1919") "bibxml" Samples.fresh)
     = Raise (RefNotFoundError no_bibxml_message repr_Q)
  /\ fst (get_indexed_ref_by_query "rfcs" (ref__iexact "rfc1917") "bibxml" Samples.fresh)
     = Return (BibxmlString "<reference anchor='RFC1917'/>").
Proof.
  split; [|split].
  - apply (proj1 (bibxml_projection "RFCs" (ref__iexact "rfc1918") Samples.fresh
                                    Samples.rfc1918 eq_refl)).
    reflexivity.
  - apply (proj1 (proj2 (bibxml_projection "rfcs" (ref__iexact "rfc1919") Samples.fresh
                                           Samples.rfc1919 eq_refl))).
    reflexivity.
  - apply (proj2 (proj2 (bibxml_projection "rfcs" (ref__iexact "rfc1917") Samples.fresh
                                           Samples.rfc1917 eq_refl))).
    + reflexivity.
    + discriminate.
Defined.

(** ** JSON text: what [json.dumps] writes, [jsonb] reads back *)
#[local] Arguments String.append : simpl nomatch.

Lemma append_assoc (a b c : string) : (a +:+ b) +:+ c = a +:+ (b +:+ c).
Proof. induction a as [|x a IH]; simpl; [reflexivity | now rewrite IH]. Qed.

Lemma append_nil_r (a : string) : a +:+ EmptyString = a.
Proof. induction a as [|x a IH]; simpl; [reflexivity | now rewrite IH]. Qed.

Lemma length_append (a b : string) :
  String.length (a +:+ b) = String.length a + String.length b.
Proof. induction a as [|x a IH]; simpl; [reflexivity | now rewrite IH]. Qed.

(** Reading an escaped character gives the character back, unless it
    is NUL. *)
Lemma read_string_escape_char (c : ascii) (t : string) :
  Ascii.eqb c nul = false ->
  read_string (escape_char c +:+ t) = prepend c (read_string t).
Proof.
  destruct c as [[] [] [] [] [] [] [] []]; intros H;
    first [reflexivity | discriminate H].
Qed.

(** The escape of NUL is refused. *)
Lemma read_string_escape_nul (t : string) : read_string (escape_char nul +:+ t) = None.
Proof. reflexivity. Qed.

Lemma read_string_escape (s rest : string) :
  nul_free s = true ->
  read_string (escape s +:+ String dquote rest) = Some (s, rest).
Proof.
  induction s as [|c s IH]; intros Hs.
  - reflexivity.
  - simpl in Hs. apply andb_true_iff in Hs as [Hc Hs]. apply negb_true_iff in Hc.
    change (escape (String c s)) with (escape_char c +:+ escape s).
    rewrite append_assoc, (read_string_escape_char c _ Hc), (IH Hs). reflexivity.
Qed.

Lemma read_digits_nil (rest : string) :
  no_digit_head rest -> read_digits rest = (Nil, rest).
Proof.
  destruct rest as [|c t]; simpl; [reflexivity|]. intros ->. reflexivity.
Qed.

Lemma read_digits_uint (u : uint) (rest : string) :
  no_digit_head rest ->
  read_digits (NilEmpty.string_of_uint u +:+ rest) = (u, rest).
Proof.
  intros H. induction u as [|u IH|u IH|u IH|u IH|u IH|u IH|u IH|u IH|u IH|u IH];
    simpl; [now apply read_digits_nil | ..]; rewrite IH; reflexivity.
Qed.

(** The digits of a positive number start with a non-zero digit. *)
Lemma well_formed_to_uint (p : positive) : well_formed_digits (Pos.to_uint p) = true.
Proof.
  pose proof (DecimalPos.Unsigned.to_uint_nonnil p) as Hnil.
  pose proof (DecimalPos.Unsigned.to_of (Pos.to_uint p)) as Hnorm.
  rewrite DecimalPos.Unsigned.of_to in Hnorm. simpl in Hnorm.
  destruct (Pos.to_uint p) as [|u|u|u|u|u|u|u|u|u|u] eqn:E; try reflexivity.
  - congruence.
  - exfalso. unfold unorm in Hnorm.
    pose proof (DecimalFacts.nzhead_nonzero (D0 u)) as Hnz.
    destruct (nzhead (D0 u)) eqn:En; try (eapply Hnz; eauto; fail).
    apply (DecimalPos.Unsigned.to_uint_nonzero p). now rewrite E.
Qed.

Lemma read_int_digits (u : uint) (rest : string) :
  well_formed_digits u = true -> no_digit_head rest ->
  read_int (NilEmpty.string_of_uint u +:+ rest) = Some (Z.of_int (Pos u), rest)
  /\ read_int (String "-" (NilEmpty.string_of_uint u +:+ rest)) = Some (Z.of_int (Neg u), rest).
Proof.
  intros Hwf Hrest. split.
  - pose proof (read_digits_uint u rest Hrest) as Hd.
    destruct u; try discriminate Hwf;
      unfold read_int; simpl String.append; simpl Ascii.eqb; cbv iota;
      simpl String.append in Hd; rewrite Hd, Hwf; reflexivity.
  - unfold read_int. simpl Ascii.eqb. cbv iota.
    rewrite (read_digits_uint u rest Hrest), Hwf. reflexivity.
Qed.

Lemma dumps_int_cases (n : Z) :
  exists u, well_formed_digits u = true
            /\ ((dumps_int n = NilEmpty.string_of_uint u /\ Z.of_int (Pos u) = n)
                \/ (dumps_int n = String "-" (NilEmpty.string_of_uint u)
                    /\ Z.of_int (Neg u) = n)).
Proof.
  destruct n as [|p|p].
  - exists (D0 Nil). split; [reflexivity|]. left. split; reflexivity.
  - exists (Pos.to_uint p). split; [apply well_formed_to_uint|]. left. split.
    + unfold dumps_int. simpl. unfold NilZero.string_of_uint.
      pose proof (DecimalPos.Unsigned.to_uint_nonnil p).
      destruct (Pos.to_uint p); congruence.
    + apply (DecimalZ.of_to (Zpos p)).
  - exists (Pos.to_uint p). split; [apply well_formed_to_uint|]. right. split.
    + unfold dumps_int. simpl. unfold NilZero.string_of_uint.
      pose proof (DecimalPos.Unsigned.to_uint_nonnil p).
      destruct (Pos.to_uint p); congruence.
    + apply (DecimalZ.of_to (Zneg p)).
Qed.

Lemma read_int_dumps_int (n : Z) (rest : string) :
  no_digit_head rest -> read_int (dumps_int n +:+ rest) = Some (n, rest).
Proof.
  intros Hrest.
  destruct (dumps_int_cases n) as (u & Hwf & [[-> <-] | [-> <-]]).
  - apply (read_int_digits u rest Hwf Hrest).
  - apply (read_int_digits u rest Hwf Hrest).
Qed.

(** Induction over documents, with the hypothesis for every item of an
    array and every value of an object. *)
Lemma json_ind (P : json -> Prop) :
  P JNull ->
  (forall b, P (JBool b)) ->
  (forall n, P (JNum n)) ->
  (forall s, P (JStr s)) ->
  (forall items, Forall P items -> P (JArr items)) ->
  (forall members, Forall (fun kv => P (snd kv)) members -> P (JObj members)) ->
  forall j, P j.
Proof.
  intros Hnull Hbool Hnum Hstr Harr Hobj.
  fix IH 1. intros [ | b | n | s | items | members ].
  - exact Hnull.
  - apply Hbool.
  - apply Hnum.
  - apply Hstr.
  - apply Harr. induction items as [|i items IHitems]; constructor; [apply IH | exact IHitems].
  - apply Hobj. induction members as [|[k v] members IHm]; constructor;
      [apply IH | exact IHm].
Qed.

Lemma head_is_append (p : ascii -> bool) (s rest : string) :
  head_is p s -> head_is p (s +:+ rest).
Proof. destruct s; simpl; [contradiction | auto]. Qed.

Lemma number_head_dumps_int (n : Z) : head_is number_head (dumps_int n).
Proof.
  destruct (dumps_int_cases n) as (u & Hwf & [[-> _] | [-> _]]).
  - destruct u; try discriminate Hwf; reflexivity.
  - reflexivity.
Qed.

Lemma number_head_value_head (c : ascii) : number_head c = true -> value_head c = true.
Proof.
  destruct c as [[] [] [] [] [] [] [] []]; intros H; try discriminate H; reflexivity.
Qed.

Lemma value_head_dumps (j : json) : head_is value_head (dumps j).
Proof.
  destruct j as [ | [] | n | s | items | members ]; try reflexivity.
  pose proof (number_head_dumps_int n) as H. simpl.
  destruct (dumps_int n); [contradiction|]. now apply number_head_value_head.
Qed.

Lemma skip_ws_value_head (s : string) : head_is value_head s -> skip_ws s = s.
Proof.
  destruct s as [|c t]; simpl; [contradiction|].
  unfold value_head. intros H. apply andb_true_iff in H as [H _].
  apply andb_true_iff in H as [H _]. apply negb_true_iff in H. now rewrite H.
Qed.

(** What [read_value] does when a number is ahead. *)
Lemma read_value_number (fuel : nat) (s : string) :
  head_is number_head s ->
  read_value (S fuel) s
  = match read_int s with
    | Some (n, r) => Some (JNum n, r)
    | None => None
    end.
Proof.
  destruct s as [|c t]; simpl head_is; [contradiction|].
  destruct c as [[] [] [] [] [] [] [] []]; intros H; try discriminate H; reflexivity.
Qed.

Lemma read_value_space (fuel : nat) (s : string) :
  read_value fuel (String " " s) = read_value fuel s.
Proof. destruct fuel; reflexivity. Qed.

Lemma read_items_space (fuel : nat) (s : string) :
  read_items fuel (String " " s) = read_items fuel s.
Proof. destruct fuel; simpl; [reflexivity|]. now rewrite read_value_space. Qed.

Lemma read_members_space (fuel : nat) (s : string) :
  read_members fuel (String " " s) = read_members fuel s.
Proof. destruct fuel; reflexivity. Qed.

Lemma read_items_join (items : list json) :
  Forall reads_back items -> items <> [] ->
  forall (fuel : nat) (rest : string),
    fold_right (fun i n => S (json_size i + n)) 0 items <= fuel ->
    read_items fuel (Py.join ", " (map dumps items) +:+ String "]" rest)
    = Some (items, rest).
Proof.
  induction items as [|x xs IH]; [congruence|].
  intros Hall _ fuel rest Hfuel.
  inversion Hall as [|? ? Hx Hxs]; subst.
  destruct fuel as [|f]; [simpl in Hfuel; lia|].
  simpl in Hfuel.
  destruct xs as [|y ys].
  - simpl Py.join. simpl read_items.
    rewrite (Hx f (String "]" rest)); [reflexivity | lia | reflexivity].
  - change (Py.join ", " (map dumps (x :: y :: ys)))
      with (dumps x +:+ ", " +:+ Py.join ", " (map dumps (y :: ys))).
    rewrite !append_assoc.
    change (", " +:+ ?s) with (String "," (String " " s)).
    simpl read_items.
    rewrite (Hx f); [| lia | reflexivity].
    simpl skip_ws. cbv beta iota. simpl Ascii.eqb. cbv iota.
    rewrite read_items_space.
    rewrite (IH Hxs); [reflexivity | congruence | simpl in *; lia].
Qed.

Lemma read_members_join (members : list (string * json)) :
  Forall (fun kv => nul_free (fst kv) = true /\ reads_back (snd kv)) members ->
  members <> [] ->
  forall (fuel : nat) (rest : string),
    fold_right (fun kv n => match kv with (_, v) => S (json_size v + n) end) 0 members <= fuel ->
    read_members fuel (Py.join ", " (map dumps_member members) +:+ String "}" rest)
    = Some (members, rest).
Proof.
  induction members as [|[k v] ms IH]; [congruence|].
  intros Hall _ fuel rest Hfuel.
  inversion Hall as [|? ? [Hk Hv] Hms]; subst. simpl in Hk, Hv.
  destruct fuel as [|f]; [simpl in Hfuel; lia|].
  simpl in Hfuel.
  assert (Hkey : forall tail,
             read_members (S f) (dumps_member (k, v) +:+ tail)
             = match read_value f (String " " (dumps v +:+ tail)) with
               | Some (value, r3) =>
                   match skip_ws r3 with
                   | String d r4 =>
                       if Ascii.eqb d "}" then Some ([(k, value)], r4)
                       else if Ascii.eqb d "," then
                              match read_members f r4 with
                              | Some (members, r5) => Some ((k, value) :: members, r5)
                              | None => None
                              end
                            else None
                   | EmptyString => None
                   end
               | None => None
               end).
  { intros tail. unfold dumps_member, dumps_str. simpl fst. simpl snd.
    rewrite !append_assoc.
    change (String dquote (escape k +:+ String dquote EmptyString) +:+ ?s)
      with (String dquote ((escape k +:+ String dquote EmptyString) +:+ s)).
    rewrite append_assoc.
    change (String dquote EmptyString +:+ ?s) with (String dquote s).
    change (": " +:+ ?s) with (String ":" (String " " s)).
    simpl read_members. rewrite (read_string_escape k _ Hk). reflexivity. }
  destruct ms as [|m ms'].
  - simpl Py.join. rewrite Hkey, read_value_space.
    rewrite (Hv f (String "}" rest)); [reflexivity | lia | reflexivity].
  - change (Py.join ", " (map dumps_member ((k, v) :: m :: ms')))
      with (dumps_member (k, v) +:+ ", " +:+ Py.join ", " (map dumps_member (m :: ms'))).
    rewrite !append_assoc.
    change (", " +:+ ?s) with (String "," (String " " s)).
    rewrite Hkey, read_value_space.
    rewrite (Hv f); [| lia | reflexivity].
    simpl skip_ws. cbv beta iota. simpl Ascii.eqb. cbv iota.
    rewrite read_members_space.
    rewrite (IH Hms); [reflexivity | congruence | simpl in *; lia].
Qed.

Lemma head_is_join (p : ascii -> bool) (sep x : string) (xs : list string) :
  head_is p x -> head_is p (Py.join sep (x :: xs)).
Proof.
  intros H. destruct xs as [|y ys].
  - exact H.
  - change (Py.join sep (x :: y :: ys)) with (x +:+ sep +:+ Py.join sep (y :: ys)).
    now apply head_is_append.
Qed.

Lemma read_value_array (fuel : nat) (s : string) :
  read_value (S fuel) (String "[" s)
  = match skip_ws s with
    | String d r =>
        if Ascii.eqb d "]" then Some (JArr [], r)
        else match read_items fuel s with
             | Some (items, r') => Some (JArr items, r')
             | None => None
             end
    | EmptyString => None
    end.
Proof. reflexivity. Qed.

Lemma read_value_object (fuel : nat) (s : string) :
  read_value (S fuel) (String "{" s)
  = match skip_ws s with
    | String d r =>
        if Ascii.eqb d "}" then Some (JObj [], r)
        else match read_members fuel s with
             | Some (members, r') => Some (JObj members, r')
             | None => None
             end
    | EmptyString => None
    end.
Proof. reflexivity. Qed.

(** Every document the store can hold is read back from the text
    [json.dumps] writes. *)
Lemma read_value_dumps (j : json) : storable j = true -> reads_back j.
Proof.
  induction j as [ | b | n | s | items IH | members IH ] using json_ind;
    intros Hst fuel rest Hfuel Hrest;
    (destruct fuel as [|f]; [simpl in Hfuel; lia|]).
  - reflexivity.
  - destruct b; reflexivity.
  - change (dumps (JNum n)) with (dumps_int n).
    rewrite read_value_number.
    + now rewrite read_int_dumps_int.
    + apply head_is_append, number_head_dumps_int.
  - change (dumps (JStr s)) with (String dquote (escape s +:+ String dquote EmptyString)).
    change (String dquote ?a +:+ rest) with (String dquote (a +:+ rest)).
    rewrite append_assoc.
    change (String dquote EmptyString +:+ rest) with (String dquote rest).
    simpl read_value. rewrite (read_string_escape s rest Hst). reflexivity.
  - assert (Hitems' : Forall reads_back items).
    { simpl in Hst. rewrite forallb_forall in Hst. rewrite Forall_forall in IH.
      apply Forall_forall. intros i Hi. apply (IH i Hi), Hst.
      now apply list_elem_of_In. }
    clear IH Hst. rename Hitems' into IH.
    destruct items as [|x xs]; [reflexivity|].
    change (dumps (JArr (x :: xs)))
      with (String "[" (Py.join ", " (map dumps (x :: xs)) +:+ "]")).
    change (String "[" ?a +:+ rest) with (String "[" (a +:+ rest)).
    rewrite append_assoc.
    change ("]" +:+ rest) with (String "]" rest).
    assert (Hhead : head_is value_head
                      (Py.join ", " (map dumps (x :: xs)) +:+ String "]" rest)).
    { apply head_is_append. simpl map. apply head_is_join, value_head_dumps. }
    pose proof (read_items_join (x :: xs) IH ltac:(congruence) f rest) as Hitems.
    simpl in Hfuel. simpl fold_right in Hitems. specialize (Hitems ltac:(lia)).
    pose proof (skip_ws_value_head _ Hhead) as Hskip.
    remember (Py.join ", " (map dumps (x :: xs)) +:+ String "]" rest) as text eqn:E.
    destruct text as [|d r]; [contradiction|].
    simpl in Hhead. unfold value_head in Hhead.
    apply andb_true_iff in Hhead as [Hhead _].
    apply andb_true_iff in Hhead as [_ Hclose]. apply negb_true_iff in Hclose.
    rewrite read_value_array, Hskip, Hclose, Hitems. reflexivity.
  - assert (Hmembers : Forall (fun kv => nul_free (fst kv) = true /\ reads_back (snd kv))
                              members).
    { simpl in Hst. rewrite forallb_forall in Hst. rewrite Forall_forall in IH.
      apply Forall_forall. intros kv Hkv.
      pose proof (Hst kv (proj1 (list_elem_of_In _ _) Hkv)) as Hboth.
      apply andb_true_iff in Hboth as [Hk Hv]. split; [exact Hk | now apply (IH kv Hkv)]. }
    clear IH Hst. rename Hmembers into IH.
    destruct members as [|[k v] ms]; [reflexivity|].
    change (dumps (JObj ((k, v) :: ms)))
      with (String "{" (Py.join ", " (map dumps_member ((k, v) :: ms)) +:+ "}")).
    change (String "{" ?a +:+ rest) with (String "{" (a +:+ rest)).
    rewrite append_assoc.
    change ("}" +:+ rest) with (String "}" rest).
    assert (Hhead : head_is value_head
                      (Py.join ", " (map dumps_member ((k, v) :: ms)) +:+ String "}" rest)).
    { apply head_is_append. simpl map. apply head_is_join. reflexivity. }
    pose proof (read_members_join ((k, v) :: ms) IH ltac:(congruence) f rest) as Hm.
    simpl in Hfuel. simpl fold_right in Hm. specialize (Hm ltac:(lia)).
    pose proof (skip_ws_value_head _ Hhead) as Hskip.
    remember (Py.join ", " (map dumps_member ((k, v) :: ms)) +:+ String "}" rest) as text eqn:E.
    destruct text as [|d r]; [contradiction|].
    simpl in Hhead. unfold value_head in Hhead.
    apply andb_true_iff in Hhead as [_ Hclose]. apply negb_true_iff in Hclose.
    rewrite read_value_object, Hskip, Hclose, Hm. reflexivity.
Qed.

Lemma head_is_length (p : ascii -> bool) (s : string) : head_is p s -> 1 <= String.length s.
Proof. destruct s; simpl; [contradiction | lia]. Qed.

Lemma items_size_le_length (items : list json) :
  Forall (fun j => json_size j <= String.length (dumps j)) items ->
  fold_right (fun i n => S (json_size i + n)) 0 items
  <= S (String.length (Py.join ", " (map dumps items))).
Proof.
  induction items as [|x xs IH]; intros Hall; [simpl; lia|].
  inversion Hall as [|? ? Hx Hxs]; subst. specialize (IH Hxs).
  destruct xs as [|y ys].
  - simpl. lia.
  - change (Py.join ", " (map dumps (x :: y :: ys)))
      with (dumps x +:+ ", " +:+ Py.join ", " (map dumps (y :: ys))).
    remember (Py.join ", " (map dumps (y :: ys))) as others.
    rewrite !length_append. simpl fold_right in *. change (String.length ", ") with 2. lia.
Qed.

Lemma members_size_le_length (members : list (string * json)) :
  Forall (fun kv => json_size (snd kv) <= String.length (dumps (snd kv))) members ->
  fold_right (fun kv n => match kv with (_, v) => S (json_size v + n) end) 0 members
  <= S (String.length (Py.join ", " (map dumps_member members))).
Proof.
  induction members as [|[k v] ms IH]; intros Hall; [simpl; lia|].
  inversion Hall as [|? ? Hv Hms]; subst. specialize (IH Hms). simpl in Hv.
  assert (Hlen : json_size v + 2 <= String.length (dumps_member (k, v))).
  { unfold dumps_member. rewrite !length_append. simpl. lia. }
  destruct ms as [|m ms'].
  - simpl Py.join. simpl fold_right. lia.
  - change (Py.join ", " (map dumps_member ((k, v) :: m :: ms')))
      with (dumps_member (k, v) +:+ ", " +:+ Py.join ", " (map dumps_member (m :: ms'))).
    remember (Py.join ", " (map dumps_member (m :: ms'))) as others.
    rewrite !length_append. simpl fold_right in *. change (String.length ", ") with 2. lia.
Qed.

Lemma json_size_le_length (j : json) : json_size j <= String.length (dumps j).
Proof.
  induction j as [ | b | n | s | items IH | members IH ] using json_ind.
  - simpl. lia.
  - destruct b; simpl; lia.
  - apply (head_is_length number_head), number_head_dumps_int.
  - simpl. lia.
  - pose proof (items_size_le_length items IH) as H.
    change (dumps (JArr items)) with (String "[" (Py.join ", " (map dumps items) +:+ "]")).
    simpl json_size. simpl String.length. rewrite length_append. simpl String.length. lia.
  - pose proof (members_size_le_length members IH) as H.
    change (dumps (JObj members))
      with (String "{" (Py.join ", " (map dumps_member members) +:+ "}")).
    simpl json_size. simpl String.length. rewrite length_append. simpl String.length. lia.
Qed.

(** The store reads the text of a document it can hold back as the
    document. *)
Lemma jsonb_in_dumps (j : json) : storable j = true -> jsonb_in (dumps j) = Some j.
Proof.
  intros Hst. unfold jsonb_in.
  pose proof (read_value_dumps j Hst (S (String.length (dumps j))) EmptyString) as H.
  rewrite append_nil_r in H. rewrite H; [reflexivity | | exact I].
  pose proof (json_size_le_length j). lia.
Qed.

Lemma read_params_dumps (objs : list json) :
  Forall (fun o => storable o = true) objs -> read_params (map dumps objs) = Some objs.
Proof.
  induction 1 as [|o objs Ho _ IH]; simpl; [reflexivity|].
  now rewrite (jsonb_in_dumps o Ho), IH.
Qed.

(** ** The statements built by [search_refs_relaton_struct] *)

Lemma expect_prefix (word s : string) : expect word (word +:+ s) = Some s.
Proof.
  induction word as [|c word IH]; simpl; [reflexivity|].
  now rewrite Ascii.eqb_refl.
Qed.

Lemma percent_s_select (arg : string) :
  Py.percent_s "SELECT * FROM api_ref_data WHERE %s" arg = select_where +:+ arg.
Proof.
  unfold select_where. simpl. now rewrite append_nil_r.
Qed.

(** The statement has one containment test per pattern, joined by [OR],
    and one parameter per pattern: its JSON text. *)
Lemma search_statement (objs : list json) :
  search_refs_relaton_struct objs
  = {| raw_query := select_where
                    +:+ Py.join " OR " (map (fun _ : json => containment_test) objs);
       raw_params := map dumps objs |}.
Proof.
  unfold search_refs_relaton_struct, RefDataManager.raw.
  now rewrite percent_s_select.
Qed.

Lemma read_tests_more (fuel : nat) (others : string) :
  read_tests (S fuel) (containment_test +:+ " OR " +:+ others)
  = match read_tests fuel others with
    | Some n => Some (S n)
    | None => None
    end.
Proof. reflexivity. Qed.

Lemma read_tests_join (objs : list json) :
  objs <> [] ->
  forall fuel : nat,
    List.length objs <= fuel ->
    read_tests fuel (Py.join " OR " (map (fun _ : json => containment_test) objs))
    = Some (List.length objs).
Proof.
  induction objs as [|o os IH]; [congruence|].
  intros _ fuel Hfuel. destruct fuel as [|f]; [simpl in Hfuel; lia|].
  destruct os as [|o' os'].
  - reflexivity.
  - change (Py.join " OR " (map (fun _ : json => containment_test) (o :: o' :: os')))
      with (containment_test
            +:+ " OR " +:+ Py.join " OR " (map (fun _ : json => containment_test) (o' :: os'))).
    remember (Py.join " OR " (map (fun _ : json => containment_test) (o' :: os'))) as others.
    rewrite read_tests_more, IH; [reflexivity | congruence | simpl in *; lia].
Qed.

Lemma tests_length (objs : list json) :
  List.length objs
  <= String.length (Py.join " OR " (map (fun _ : json => containment_test) objs)).
Proof.
  induction objs as [|o os IH]; [simpl; lia|].
  destruct os as [|o' os'].
  - simpl. lia.
  - change (Py.join " OR " (map (fun _ : json => containment_test) (o :: o' :: os')))
      with (containment_test
            +:+ " OR " +:+ Py.join " OR " (map (fun _ : json => containment_test) (o' :: os'))).
    remember (Py.join " OR " (map (fun _ : json => containment_test) (o' :: os'))) as others.
    rewrite !length_append. simpl in *. lia.
Qed.

Lemma read_condition_join (objs : list json) :
  objs <> [] ->
  read_condition (Py.join " OR " (map (fun _ : json => containment_test) objs))
  = ContainsAny (List.length objs).
Proof.
  intros Hne. unfold read_condition.
  rewrite (read_tests_join objs Hne _ (tests_length objs)).
  destruct objs as [|o [|o' os]]; [congruence | reflexivity | reflexivity].
Qed.

(** Running the statement of a non-empty search whose patterns the store
    can hold: the rows whose body contains the document of one of the
    patterns. *)
Lemma run_search (objs : list json) (table : list RefData) :
  objs <> [] -> Forall (fun o => storable o = true) objs ->
  run_raw (raw_query (search_refs_relaton_struct objs))
          (raw_params (search_refs_relaton_struct objs)) table
  = Return (List.filter (fun r => existsb (jsonb_contains (body r)) objs) table).
Proof.
  intros Hne Hst. rewrite search_statement. cbn [raw_query raw_params].
  unfold run_raw. rewrite expect_prefix, (read_condition_join objs Hne).
  rewrite length_map, Nat.eqb_refl, (read_params_dumps objs Hst). reflexivity.
Qed.


(** C10.  With no pattern at all the statement is
    [SELECT * FROM api_ref_data WHERE ] with nothing after [WHERE] and no
    parameter; iterating the query set makes the store raise a syntax
    error, it does not give an empty list of rows. *)
Theorem search_without_patterns :
  search_refs_relaton_struct []
  = {| raw_query := "SELECT * FROM api_ref_data WHERE "; raw_params := [] |}
  /\ (forall w : world,
         fst (iterate (search_refs_relaton_struct []) w)
         = Raise (ProgrammingError "syntax error at end of input"))
  /\ (forall w : world,
         fst (iterate (search_refs_relaton_struct []) w) <> Return []).
Proof.
  split; [reflexivity | split]; intros w.
  - reflexivity.
  - discriminate.
Qed.

(** ** Containment: the store's walk and the specification's words *)

Lemma forallb_Forall_ext {A : Type} (f g : A -> bool) (l : list A) :
  Forall (fun x => f x = g x) l -> forallb f l = forallb g l.
Proof.
  induction 1 as [|x l Hx _ IH]; simpl; [reflexivity | now rewrite Hx, IH].
Qed.

Lemma existsb_pointwise {A : Type} (f g : A -> bool) (l : list A) :
  (forall x, f x = g x) -> existsb f l = existsb g l.
Proof.
  intros H. induction l as [|x l IH]; simpl; [reflexivity | now rewrite H, IH].
Qed.

Lemma scalar_eqb_sym (a b : json) : scalar_eqb a b = scalar_eqb b a.
Proof.
  destruct a, b; simpl; try reflexivity.
  - destruct b, b0; reflexivity.
  - apply Z.eqb_sym.
  - apply String.eqb_sym.
Qed.

Lemma scalar_eqb_container (a b : json) : is_scalar b = false -> scalar_eqb a b = false.
Proof. destruct a, b; simpl; congruence. Qed.

Lemma structurally_contains_scalar_pattern (body pat : json) :
  is_scalar pat = true -> structurally_contains body pat = scalar_eqb body pat.
Proof. destruct pat; simpl; congruence. Qed.

Lemma structurally_contains_scalar_body (body pat : json) :
  is_scalar body = true -> is_scalar pat = false -> structurally_contains body pat = false.
Proof. destruct pat, body; simpl; congruence. Qed.

(** On a container pattern the store's walk decides the specification's
    containment. *)
Lemma deep_contains_structural (pat : json) :
  is_scalar pat = false ->
  forall val : json, deep_contains val pat = structurally_contains val pat.
Proof.
  induction pat as [ | b | n | s | pitems IH | pmembers IH ] using json_ind;
    intros Hpat val; try discriminate Hpat.
  - destruct val as [ | | | | vitems | ]; try reflexivity.
    simpl. apply forallb_Forall_ext.
    eapply Forall_impl; [exact IH |]. intros p Hp. simpl in Hp.
    destruct (is_scalar p) eqn:Es.
    + apply existsb_pointwise. intros v.
      now rewrite (structurally_contains_scalar_pattern v p Es), scalar_eqb_sym.
    + apply existsb_pointwise. intros v.
      destruct (is_scalar v) eqn:Ev; simpl.
      * now rewrite (structurally_contains_scalar_body v p Ev Es).
      * now apply Hp.
  - destruct val as [ | | | | | vmembers ]; try reflexivity.
    simpl. apply forallb_Forall_ext.
    eapply Forall_impl; [exact IH |]. intros [k p] Hp. simpl in Hp.
    destruct (member k vmembers) as [lhs|]; [|reflexivity].
    destruct (is_scalar p) eqn:Es.
    + rewrite orb_true_r. now rewrite (structurally_contains_scalar_pattern lhs p Es).
    + rewrite orb_false_r. destruct (is_scalar lhs) eqn:El.
      * rewrite (structurally_contains_scalar_body lhs p El Es).
        now apply scalar_eqb_container.
      * now apply Hp.
Qed.

(** [@>] with a dict or a list on the right is the specification's
    containment. *)
Lemma jsonb_contains_structural (val pat : json) :
  is_document pat = true -> jsonb_contains val pat = structurally_contains val pat.
Proof.
  intros Hdoc.
  assert (Hpat : is_scalar pat = false)
    by (destruct pat; unfold is_document in Hdoc; simpl in *; congruence).
  unfold jsonb_contains, as_root_array. rewrite Hpat, andb_true_r.
  destruct (is_scalar val) eqn:Ev.
  - rewrite (structurally_contains_scalar_body val pat Ev Hpat).
    destruct (Bool.eqb _ _); reflexivity.
  - rewrite (deep_contains_structural pat Hpat val).
    destruct val, pat; simpl in *; try congruence; reflexivity.
Qed.

Lemma iterate_outcome (qs : RawQuerySet) (w : world) :
  fst (iterate qs w) = run_raw (raw_query qs) (raw_params qs) (api_ref_data w).
Proof. reflexivity. Qed.




(** ** [list_doctypes] *)

Lemma option_string_eqb_eq (a b : option string) :
  option_string_eqb a b = true <-> a = b.
Proof.
  destruct a as [x|], b as [y|]; simpl; try (split; congruence).
  rewrite String.eqb_eq. split; congruence.
Qed.

Lemma existsb_option_string (d : option string) (seen : list (option string)) :
  existsb (option_string_eqb d) seen = true <-> In d seen.
Proof.
  rewrite existsb_exists. split.
  - intros (x & Hin & Heq). apply option_string_eqb_eq in Heq. now subst.
  - intros Hin. exists d. split; [exact Hin | now apply option_string_eqb_eq].
Qed.

(** Keeping first rows: no value of [doctype] twice, none that was seen
    before, only rows of the input, and every value of the input either
    seen before or kept. *)
Lemma keep_first_spec (rows : list item) :
  forall seen : list (option string),
    List.NoDup (map doctype (keep_first seen rows))
    /\ (forall i, In i (keep_first seen rows) -> In i rows /\ ~ In (doctype i) seen)
    /\ (forall i, In i rows ->
                  In (doctype i) seen \/ In (doctype i) (map doctype (keep_first seen rows))).
Proof.
  induction rows as [|i rows IH]; intros seen; simpl.
  - split; [constructor | split; [contradiction | contradiction]].
  - destruct (existsb (option_string_eqb (doctype i)) seen) eqn:E.
    + apply existsb_option_string in E.
      destruct (IH seen) as (Hnd & Hin & Hall). split; [exact Hnd | split].
      * intros j Hj. destruct (Hin j Hj). auto.
      * intros j [<- | Hj]; [now left | now apply Hall].
    + assert (Hnew : ~ In (doctype i) seen).
      { intros Hin. apply existsb_option_string in Hin. congruence. }
      destruct (IH (doctype i :: seen)) as (Hnd & Hin & Hall). split; [|split].
      * simpl. constructor; [| exact Hnd].
        intros Hdup. apply in_map_iff in Hdup as (j & Hd & Hj).
        destruct (Hin j Hj) as [_ Hfresh]. apply Hfresh. left. now rewrite Hd.
      * intros j [<- | Hj]; [auto|].
        destruct (Hin j Hj) as [Hrows Hfresh]. split; [now right|].
        intros Hs. apply Hfresh. now right.
      * intros j [<- | Hj]; [right; now left|].
        destruct (Hall j Hj) as [[Heq | Hs] | Hk].
        -- right. left. exact Heq.
        -- now left.
        -- right. now right.
Qed.

(** The executable [list_doctypes] is one of the admitted results: the
    call does return. *)
Lemma list_doctypes_admitted (table : list RefData) :
  list_doctypes_returns table (list_doctypes table).
Proof.
  exists (keep_first [] (inner_select table)). split; [|reflexivity].
  destruct (keep_first_spec (inner_select table) []) as (Hnd & Hin & Hall).
  split; [exact Hnd | split].
  - intros i Hi. now destruct (Hin i Hi).
  - intros i Hi. destruct (Hall i Hi) as [[] | H]. exact H.
Qed.

(** A value that is no string is given as [jsonb] writes it: a
    character from 128 on stays as it is, where [json.dumps] escapes it,
    and the keys of an object come shorter first. *)
Example element_text_of_containers :
  element_text (JArr [JStr (String "233" EmptyString)])
  = Some ("[" +:+ String dquote (String "233" (String dquote "]")))
  /\ dumps (JArr [JStr (String "233" EmptyString)])
     = "[" +:+ String dquote (String backslash "u00e9" +:+ String dquote "]")
  /\ element_text (JObj [("id", JNull); ("a", JNum 1)])
     = Some (dumps (JObj [("a", JNum 1); ("id", JNull)])).
Proof. repeat split. Qed.

Lemma lockstep_map {A : Type} (f g : A -> option string) (l : list A) :
  lockstep (map f l) (map g l) = map (fun x => (f x, g x)) l.
Proof. induction l as [|x l IH]; simpl; [reflexivity | now rewrite IH]. Qed.

(** On a complete entry the two path queries find the two strings. *)
Lemma path_key_entry (key : string) (entry : json) (s : string) :
  entry_field key entry = Some s -> path_key key entry = [JStr s].
Proof.
  unfold entry_field, path_key. destruct entry as [ | | | | | members ]; try discriminate.
  destruct (member key members) as [[ | | | v | | ]|]; try discriminate.
  now intros [= ->].
Qed.

Lemma path_entries_texts (key : string) (entries : list json) :
  Forall (fun e => exists s, entry_field key e = Some s) entries ->
  map element_text (flat_map (path_key key) entries) = map (entry_field key) entries.
Proof.
  induction 1 as [|e entries (s & Hs) _ IH]; simpl; [reflexivity|].
  rewrite (path_key_entry key e s Hs), Hs. simpl. now rewrite IH.
Qed.

Lemma complete_entry_fields (e : json) :
  complete_entry e = true ->
  (exists t, entry_field "type" e = Some t) /\ (exists i, entry_field "id" e = Some i).
Proof.
  unfold complete_entry.
  destruct (entry_field "type" e) as [t|], (entry_field "id" e) as [i|]; try discriminate.
  eauto.
Qed.

(** With complete entries the inner select pairs each entry's type with
    the same entry's id. *)
Lemma items_of_complete (r : RefData) :
  complete_docids (body r) = true ->
  items_of r
  = map (fun e => mkItem (pk r) (entry_field "type" e) (entry_field "id" e))
        (docid_entries (body r)).
Proof.
  unfold items_of, complete_docids, docid_entries, path_docid.
  destruct (body r) as [ | | | | | members ]; try discriminate.
  unfold path_key at 2 4. 
  destruct (member "docid" members) as [[ | | | | entries | ]|]; try discriminate;
    [| reflexivity].
  intros Hall. simpl option_list. simpl flat_map at 2 4. rewrite !app_nil_r.
  rewrite forallb_forall in Hall.
  rewrite !path_entries_texts, lockstep_map, map_map; [reflexivity | |].
  - apply Forall_forall. intros e He. apply list_elem_of_In in He.
    now destruct (complete_entry_fields e (Hall e He)).
  - apply Forall_forall. intros e He. apply list_elem_of_In in He.
    now destruct (complete_entry_fields e (Hall e He)).
Qed.

Lemma in_inner_select (table : list RefData) (i : item) :
  In i (inner_select table) <-> exists r, In r table /\ In i (items_of r).
Proof. unfold inner_select. apply in_flat_map. Qed.

(** With complete entries, a row of the inner select is an entry of
    some record, and the other way round. *)
Lemma inner_select_complete (table : list RefData) (i : item) :
  Forall (fun r => complete_docids (body r) = true) table ->
  In i (inner_select table)
  <-> exists r entry,
        In r table /\ In entry (docid_entries (body r))
        /\ i = mkItem (pk r) (entry_field "type" entry) (entry_field "id" entry)
        /\ complete_entry entry = true.
Proof.
  intros Hall. rewrite Forall_forall in Hall. rewrite in_inner_select. split.
  - intros (r & Hr & Hi).
    pose proof (Hall r (proj2 (list_elem_of_In _ _) Hr)) as Hc.
    rewrite (items_of_complete r Hc) in Hi. apply in_map_iff in Hi as (e & <- & He).
    exists r, e. repeat split; auto.
    unfold complete_docids, docid_entries in *.
    destruct (body r) as [ | | | | | members ]; try discriminate.
    destruct (member "docid" members) as [[ | | | | entries | ]|]; try discriminate;
      [| contradiction].
    rewrite forallb_forall in Hc. now apply Hc.
  - intros (r & e & Hr & He & -> & _). exists r. split; [exact Hr|].
    pose proof (Hall r (proj2 (list_elem_of_In _ _) Hr)) as Hc.
    rewrite (items_of_complete r Hc). apply in_map_iff. now exists e.
Qed.

(** Outside the data model, at a record whose first [docid] entry has
    no type: the types and the ids are paired by position, so the pair
    of type [T] and id [A], which no entry has, is in every result, next
    to a doctype that is NULL. *)
Lemma untyped_docid_pairs_by_position :
  inner_select [untyped_first]
  = [mkItem 7 (Some "T") (Some "A"); mkItem 7 None (Some "B")]
  /\ (forall result,
         list_doctypes_returns [untyped_first] result ->
         In (Some "T", Some "A") result /\ In None (map fst result))
  /\ ~ docid_occurs [untyped_first] "T" "A".
Proof.
  split; [reflexivity | split].
  - intros result (kept & (_ & Hin & Hall) & ->).
    change (inner_select [untyped_first])
      with [mkItem 7 (Some "T") (Some "A"); mkItem 7 None (Some "B")] in Hin, Hall.
    split.
    + pose proof (Hall (mkItem 7 (Some "T") (Some "A")) ltac:(now left)) as H.
      apply in_map_iff in H as (k & Hk & Hkept).
      apply in_map_iff. exists k. split; [|exact Hkept].
      destruct (Hin k Hkept) as [<- | [<- | []]]; [reflexivity | discriminate Hk].
    + pose proof (Hall (mkItem 7 None (Some "B")) ltac:(right; now left)) as H.
      simpl in H. now rewrite map_map.
  - intros (r & entry & Hr & He & Ht & Hi).
    destruct Hr as [<- | []].
    destruct He as [<- | [<- | []]]; [discriminate Ht | discriminate Hi].
Qed.

(** C6.  On records as the data model describes them, the body an object
    whose [docid] entries each carry a string [type] and a string [id],
    every result of [list_doctypes] has exactly one pair for each type
    that occurs in the table and for nothing else, and each pair is the
    type and the id of one entry of some record; which entry supplies
    the sample is left to the store, and the call does return such a
    result. *)
Theorem list_doctypes_on_complete_docids
        (table : list RefData) (result : list (option string * option string)) :
  Forall (fun r => complete_docids (body r) = true) table ->
  list_doctypes_returns table result ->
  List.NoDup (map fst result)
  /\ (forall t : string, type_occurs table t <-> In (Some t) (map fst result))
  /\ (forall d s, In (d, s) result ->
                  exists t i, d = Some t /\ s = Some i /\ docid_occurs table t i)
  /\ list_doctypes_returns table (list_doctypes table).
Proof.
  intros Hcomplete (kept & (Hnd & Hin & Hall) & ->).
  rewrite map_map. simpl.
  split; [exact Hnd | split; [| split]].
  - intros t. split.
    + intros (r & e & Hr & He & Ht).
      assert (Hce : complete_entry e = true).
      { rewrite Forall_forall in Hcomplete.
        pose proof (Hcomplete r (proj2 (list_elem_of_In _ _) Hr)) as Hc.
        unfold complete_docids, docid_entries in *.
        destruct (body r) as [ | | | | | members ]; try contradiction.
        destruct (member "docid" members) as [[ | | | | entries | ]|]; try contradiction.
        rewrite forallb_forall in Hc. now apply Hc. }
      rewrite <- Ht.
      apply (Hall (mkItem (pk r) (entry_field "type" e) (entry_field "id" e))).
      apply (inner_select_complete table _ Hcomplete). now exists r, e.
    + intros Ht. apply in_map_iff in Ht as (k & Hk & Hkept).
      apply Hin, (inner_select_complete table _ Hcomplete) in Hkept
        as (r & e & Hr & He & -> & _).
      exists r, e. auto.
  - intros d s Hds. apply in_map_iff in Hds as (k & [= <- <-] & Hkept).
    apply Hin, (inner_select_complete table _ Hcomplete) in Hkept
      as (r & e & Hr & He & -> & Hce).
    destruct (complete_entry_fields e Hce) as [[t Ht] [i Hi]].
    exists t, i. simpl. repeat split; auto. now exists r, e.
  - apply list_doctypes_admitted.
Qed.

(** Over the sample table, at a result in the order of the doctypes
    and with samples of different records. *)
Lemma list_doctypes_on_complete_docids_witness :
  list_doctypes_returns
    Samples.table
    [(Some "DOI", Some "10.17487/RFC1919"); (Some "ISO", Some "ISO 9001");
     (Some "RFC", Some "RFC 1918")]
  /\ (forall t : string,
         type_occurs Samples.table t
         <-> In (Some t) [Some "DOI"; Some "ISO"; Some "RFC"])
  /\ (forall d s,
         In (d, s) [(Some "DOI", Some "10.17487/RFC1919"); (Some "ISO", Some "ISO 9001");
                    (Some "RFC", Some "RFC 1918")] ->
         exists t i, d = Some t /\ s = Some i /\ docid_occurs Samples.table t i).
Proof.
  assert (Hres : list_doctypes_returns
                   Samples.table
                   [(Some "DOI", Some "10.17487/RFC1919"); (Some "ISO", Some "ISO 9001");
                    (Some "RFC", Some "RFC 1918")]).
  { exists [mkItem 3 (Some "DOI") (Some "10.17487/RFC1919");
            mkItem 4 (Some "ISO") (Some "ISO 9001");
            mkItem 2 (Some "RFC") (Some "RFC 1918")].
    split; [| reflexivity]. split; [| split].
    - repeat (constructor; [simpl; intuition discriminate |]). constructor.
    - intros i Hi. vm_compute. simpl in Hi. intuition.
    - intros i Hi. vm_compute in Hi.
      repeat (destruct Hi as [<- | Hi]; [simpl; tauto |]). destruct Hi. }
  split; [exact Hres |].
  pose proof (list_doctypes_on_complete_docids
                Samples.table _ ltac:(repeat constructor) Hres)
    as (_ & Htypes & Hpairs & _).
  split; [exact Htypes | exact Hpairs].
Defined.

(** ** The serializer *)

(** The serializer's tests, on the fixtures of [setUp]. *)
Example test_create_reference (policy : title_policy) :
  exists ref, create_reference policy bibitem = Return ref /\ tag_of ref = "reference".
Proof. destruct policy; eexists; split; reflexivity. Qed.

(** The test expects [ValueError]: the serializer under test does not
    fall back on the title of the related item. *)
Example test_fail_create_reference_if_missing_titles :
  create_reference OwnTitleOnly (without_title bibitem)
  = Raise (ValueError "missing titles")
  /\ exists ref,
      create_reference FallbackThroughRelation (without_title bibitem) = Return ref.
Proof. split; [reflexivity | eexists; reflexivity]. Qed.

Example test_fail_if_wrong_combination_of_titles_and_relations (policy : title_policy) :
  create_reference policy (without_relation (without_title bibitem))
  = Raise (ValueError "missing titles and relations").
Proof. destruct policy; reflexivity. Qed.

Example test_create_author :
  (exists author, create_author contributor_organization = Return author
                  /\ tag_of author = "author")
  /\ exists author, create_author contributor_person = Return author.
Proof. split; eexists; [split |]; reflexivity. Qed.

Example test_fail_create_author_if_incompatible_roles :
  create_author (with_role None contributor_organization)
  = Raise (ValueError "missing role / incompatible role").
Proof. reflexivity. Qed.

Example test_fail_create_author_if_missing_person_or_organization :
  create_author (without_organization contributor_organization)
  = Raise (ValueError "missing person or organization").
Proof. reflexivity. Qed.



Lemma valid_contributor_builds (c : Contributor) :
  valid_contributor c = true ->
  exists author,
    create_author c = Return author
    /\ tag_of author = "author"
    /\ has_child "organization" author = populated (organization c)
    /\ has_child "person" author = populated (person c).
Proof.
  unfold valid_contributor, create_author.
  destruct (role c) as [r|]; [|discriminate].
  destruct (Py.str_in r recognized_roles); [|discriminate]. simpl.
  destruct (organization c) as [org|], (person c) as [p|]; try discriminate;
    intros _; eexists; repeat split; reflexivity.
Qed.










(** C8.  [create_author] raises [ValueError] when the role is unset or
    not recognized, and when neither organization nor person is set; for
    a contributor with a recognized role and exactly one of the two set,
    it returns an [author] element that has an [organization] child
    exactly when the organization is set and a [person] child exactly
    when the person is set. *)
Theorem create_author_contract (c : Contributor) :
  (role c = None ->
   exists message, create_author c = Raise (ValueError message))
  /\ (forall r, role c = Some r -> Py.str_in r recognized_roles = false ->
                exists message, create_author c = Raise (ValueError message))
  /\ (organization c = None -> person c = None ->
      exists message, create_author c = Raise (ValueError message))
  /\ (valid_contributor c = true ->
      exists author,
        create_author c = Return author
        /\ tag_of author = "author"
        /\ has_child "organization" author = populated (organization c)
        /\ has_child "person" author = populated (person c)).
Proof.
  split; [| split; [| split]].
  - unfold create_author. intros ->. eauto.
  - unfold create_author. intros r -> ->. simpl. eauto.
  - unfold create_author. intros -> ->.
    destruct (role c) as [r|]; [|eauto].
    destruct (Py.str_in r recognized_roles); simpl; eauto.
  - apply valid_contributor_builds.
Qed.

Lemma create_author_contract_witness :
  (exists message,
      create_author (with_role None contributor_person) = Raise (ValueError message))
  /\ (exists message,
         create_author (with_role (Some "translator") contributor_person)
         = Raise (ValueError message))
  /\ (exists message,
         create_author (without_person contributor_person) = Raise (ValueError message))
  /\ (exists author,
         create_author contributor_organization = Return author
         /\ tag_of author = "author"
         /\ has_child "organization" author = true
         /\ has_child "person" author = false)
  /\ (exists author,
         create_author contributor_person = Return author
         /\ tag_of author = "author"
         /\ has_child "organization" author = false
         /\ has_child "person" author = true).
Proof.
  split; [| split; [| split; [| split]]].
  - apply (proj1 (create_author_contract (with_role None contributor_person))).
    reflexivity.
  - apply (proj1 (proj2 (create_author_contract
                           (with_role (Some "translator") contributor_person)))
                 "translator"); reflexivity.
  - apply (proj1 (proj2 (proj2 (create_author_contract
                                  (without_person contributor_person)))));
      reflexivity.
  - apply (proj2 (proj2 (proj2 (create_author_contract contributor_organization)))).
    reflexivity.
  - apply (proj2 (proj2 (proj2 (create_author_contract contributor_person)))).
    reflexivity.
Defined.

(** * Further properties of [main/indexed.py] *)

(** ** Lookups up to case *)

Lemma iexact_upper (column value : string) :
  iexact column value = true <-> upper column = upper value.
Proof. unfold iexact. apply String.eqb_eq. Qed.

Lemma iexact_same_case (column v1 v2 : string) :
  upper v1 = upper v2 -> iexact column v1 = iexact column v2.
Proof. unfold iexact. now intros ->. Qed.

(** Two conditions that agree on every row select the same rows. *)
Lemma matching_pointwise (table : list RefData) (d1 d2 : string) (q1 q2 : Q) :
  upper d1 = upper d2 -> (forall r, q1 r = q2 r) ->
  matching table d1 q1 = matching table d2 q2.
Proof.
  intros Hd Hq. unfold matching. apply List.filter_ext. intros r.
  unfold Q_and, dataset__iexact. now rewrite Hq, (iexact_same_case _ d1 d2 Hd).
Qed.

(** ** What a lookup returns, issues and never raises *)

Lemma row_key_matches (r y : RefData) :
  Q_and (ref__iexact (ref r)) (dataset__iexact (dataset r)) y = true
  <-> row_key y = row_key r.
Proof.
  unfold Q_and, ref__iexact, dataset__iexact, row_key.
  rewrite andb_true_iff, !iexact_upper. split.
  - intros [-> ->]. reflexivity.
  - intros [= -> ->]. auto.
Qed.

(** In a table with unique keys the rows that match a row's own key are
    that row alone. *)
Lemma matching_own_key (table : list RefData) (r : RefData) :
  unique_keys table -> In r table ->
  matching table (dataset r) (ref__iexact (ref r)) = [r].
Proof.
  unfold unique_keys, matching.
  set (p := Q_and (ref__iexact (ref r)) (dataset__iexact (dataset r))).
  assert (Hnone : forall l, ~ In (row_key r) (map row_key l) -> List.filter p l = []).
  { induction l as [|a l IH]; simpl; intros Hnot; [reflexivity|].
    destruct (p a) eqn:Ea.
    - exfalso. apply Hnot. left. now apply row_key_matches.
    - apply IH. intros Hin. apply Hnot. now right. }
  induction table as [|a table IH]; simpl; intros Hnd Hin; [contradiction|].
  apply List.NoDup_cons_iff in Hnd as [Hfresh Hnd].
  destruct Hin as [-> | Hin].
  - replace (p r) with true by (symmetry; now apply row_key_matches).
    now rewrite (Hnone table Hfresh).
  - destruct (p a) eqn:Ea.
    + exfalso. apply Hfresh. apply row_key_matches in Ea. rewrite Ea.
      now apply in_map.
    + now apply IH.
Qed.

(** X3.  In a table where no two rows share dataset and ref up to case,
    every row is resolved by its own dataset and ref, written in any
    letter case: the [relaton] format gives its body back, after one
    [get] with the ref and the dataset as they were written. *)
Theorem own_key_resolves (w : world) (r : RefData) (dataset_id ref_id : string) :
  unique_keys (api_ref_data w) -> In r (api_ref_data w) ->
  upper dataset_id = upper (dataset r) -> upper ref_id = upper (ref r) ->
  get_indexed_ref dataset_id ref_id "relaton" w
  = (Return (RelatonDict (body r)),
     issue (SelectGet (Q_and (ref__iexact ref_id) (dataset__iexact dataset_id))) w).
Proof.
  intros Hu Hin Hd Hr. unfold get_indexed_ref.
  apply lookup_one_relaton.
  rewrite (matching_pointwise _ dataset_id (dataset r) (ref__iexact ref_id)
                              (ref__iexact (ref r)) Hd).
  - now apply matching_own_key.
  - intros y. unfold ref__iexact. now apply iexact_same_case.
Qed.

Lemma own_key_resolves_witness :
  unique_keys (api_ref_data Samples.fresh)
  /\ get_indexed_ref "ISO" "iso-9001" "relaton" Samples.fresh
     = (Return (RelatonDict Samples.iso_body),
        issue (SelectGet (Q_and (ref__iexact "iso-9001") (dataset__iexact "ISO")))
              Samples.fresh).
Proof.
  assert (Hu : unique_keys (api_ref_data Samples.fresh)).
  { unfold unique_keys. vm_compute.
    repeat (constructor; [simpl; intuition discriminate |]). constructor. }
  split; [exact Hu|].
  apply (own_key_resolves Samples.fresh Samples.iso9001 "ISO" "iso-9001" Hu).
  - vm_compute. tauto.
  - reflexivity.
  - reflexivity.
Defined.

(** Whatever the lookup returns is read off the single matching row. *)
Lemma returned_from_row (dataset_id : string) (query : Q) (format : string) (w : world)
      (c : citation) :
  fst (get_indexed_ref_by_query dataset_id query format w) = Return c ->
  exists r,
    matching (api_ref_data w) dataset_id query = [r]
    /\ ((format = "relaton" /\ c = RelatonDict (body r))
        \/ (format = "bibxml"
            /\ exists xml, c = BibxmlString xml
                           /\ representations r !! "bibxml" = Some xml
                           /\ xml <> EmptyString)).
Proof.
  intros H.
  destruct (Py.str_in format ["relaton"; "bibxml"]) eqn:Hf.
  - destruct (matching_cases dataset_id query w) as [Hm | [[r Hm] | Hm]].
    + rewrite (lookup_none _ _ _ _ Hf Hm) in H. discriminate H.
    + exists r. split; [exact Hm|].
      destruct (supported_format _ Hf) as [-> | ->].
      * rewrite (lookup_one_relaton _ _ _ _ Hm) in H. simpl in H.
        injection H as <-. left. auto.
      * rewrite (lookup_one_bibxml _ _ _ _ Hm) in H. simpl in H.
        destruct (representations r !! "bibxml") as [xml|]; [|discriminate H].
        destruct xml as [|ch xml]; simpl in H; [discriminate H|].
        injection H as <-. right. split; [reflexivity|].
        eexists. repeat split. discriminate.
    + rewrite (lookup_many _ _ _ _ Hf Hm) in H. discriminate H.
  - unfold get_indexed_ref_by_query in H. rewrite Hf in H. discriminate H.
Qed.

Lemma matching_row (table : list RefData) (dataset_id : string) (query : Q) (r : RefData) :
  In r (matching table dataset_id query) ->
  In r table /\ query r = true /\ upper (dataset r) = upper dataset_id.
Proof.
  unfold matching. rewrite List.filter_In. unfold Q_and, dataset__iexact.
  rewrite andb_true_iff, iexact_upper. tauto.
Qed.

(** X4.  A citation that [get_indexed_ref_by_query] returns always comes
    from a row of the table that satisfies the query and lies in the
    dataset asked for: the [relaton] format returns that row's body, the
    [bibxml] format that row's stored, non-empty [bibxml] string. *)
Theorem returned_citation_is_of_the_dataset
        (dataset_id : string) (query : Q) (format : string) (w : world) (c : citation) :
  fst (get_indexed_ref_by_query dataset_id query format w) = Return c ->
  exists r,
    In r (api_ref_data w) /\ query r = true /\ upper (dataset r) = upper dataset_id
    /\ ((format = "relaton" /\ c = RelatonDict (body r))
        \/ (format = "bibxml"
            /\ exists xml, c = BibxmlString xml
                           /\ representations r !! "bibxml" = Some xml
                           /\ xml <> EmptyString)).
Proof.
  intros H. destruct (returned_from_row _ _ _ _ _ H) as (r & Hm & Hc).
  exists r. assert (Hin : In r (matching (api_ref_data w) dataset_id query))
    by (rewrite Hm; now left).
  destruct (matching_row _ _ _ _ Hin) as (H1 & H2 & H3). auto.
Qed.

Lemma returned_citation_is_of_the_dataset_witness :
  exists r,
    In r Samples.table /\ ref__iexact "rfc1917" r = true /\ upper (dataset r) = upper "RFCS"
    /\ (("bibxml" = "relaton" /\ BibxmlString "<reference anchor='RFC1917'/>" = RelatonDict (body r))
        \/ ("bibxml" = "bibxml"
            /\ exists xml, BibxmlString "<reference anchor='RFC1917'/>" = BibxmlString xml
                           /\ representations r !! "bibxml" = Some xml
                           /\ xml <> EmptyString)).
Proof.
  apply (returned_citation_is_of_the_dataset "RFCS" (ref__iexact "rfc1917") "bibxml"
                                             Samples.fresh).
  reflexivity.
Defined.

(** X5.  A lookup never changes the table; with a supported format it
    issues exactly one statement, the [get] for the query joined with
    the dataset test, whether it then returns or raises. *)
Theorem lookup_reads_once (dataset_id : string) (query : Q) (format : string) (w : world) :
  api_ref_data (snd (get_indexed_ref_by_query dataset_id query format w)) = api_ref_data w
  /\ (format = "relaton" \/ format = "bibxml" ->
      issued (snd (get_indexed_ref_by_query dataset_id query format w))
      = issued w ++ [SelectGet (Q_and query (dataset__iexact dataset_id))]).
Proof.
  destruct (Py.str_in format ["relaton"; "bibxml"]) eqn:Hf.
  - assert (Hsnd : snd (get_indexed_ref_by_query dataset_id query format w)
                   = issue (SelectGet (Q_and query (dataset__iexact dataset_id))) w).
    { destruct (matching_cases dataset_id query w) as [Hm | [[r Hm] | Hm]].
      - now rewrite (lookup_none _ _ _ _ Hf Hm).
      - destruct (supported_format _ Hf) as [-> | ->].
        + now rewrite (lookup_one_relaton _ _ _ _ Hm).
        + now rewrite (lookup_one_bibxml _ _ _ _ Hm).
      - now rewrite (lookup_many _ _ _ _ Hf Hm). }
    rewrite Hsnd. split; reflexivity.
  - unfold get_indexed_ref_by_query. rewrite Hf. simpl. split; [reflexivity|].
    intros [-> | ->]; discriminate Hf.
Qed.

Lemma lookup_reads_once_witness :
  issued (snd (get_indexed_ref_by_query "rfcs" Samples.any_row "bibxml" Samples.fresh))
  = [SelectGet (Q_and Samples.any_row (dataset__iexact "rfcs"))]
  /\ issued (snd (get_indexed_ref_by_query "none" Samples.any_row "relaton" Samples.fresh))
     = [SelectGet (Q_and Samples.any_row (dataset__iexact "none"))].
Proof.
  split.
  - apply (proj2 (lookup_reads_once "rfcs" Samples.any_row "bibxml" Samples.fresh)).
    right. reflexivity.
  - apply (proj2 (lookup_reads_once "none" Samples.any_row "relaton" Samples.fresh)).
    left. reflexivity.
Defined.

(** X6.  With two or more matching rows and a supported format the call
    ends with the interpreter's [TypeError] raised at the second
    [except] clause; and no call at all, whatever its arguments, raises
    the [RefNotFoundError] that the body of that clause holds. *)
Theorem several_matches_end_in_type_error
        (dataset_id : string) (query : Q) (format : string) (w : world) :
  (forall query_repr,
      fst (get_indexed_ref_by_query dataset_id query format w)
      <> Raise (RefNotFoundError "Multiple references match query in given dataset"
                                 query_repr))
  /\ (format = "relaton" \/ format = "bibxml" ->
      2 <= List.length (matching (api_ref_data w) dataset_id query) ->
      fst (get_indexed_ref_by_query dataset_id query format w)
      = Raise (TypeError
                 "catching classes that do not inherit from BaseException is not allowed")).
Proof.
  split.
  - intros query_repr.
    destruct (Py.str_in format ["relaton"; "bibxml"]) eqn:Hf.
    + destruct (matching_cases dataset_id query w) as [Hm | [[r Hm] | Hm]].
      * rewrite (lookup_none _ _ _ _ Hf Hm). discriminate.
      * destruct (supported_format _ Hf) as [-> | ->].
        -- rewrite (lookup_one_relaton _ _ _ _ Hm). discriminate.
        -- rewrite (lookup_one_bibxml _ _ _ _ Hm). simpl.
           destruct (representations r !! "bibxml") as [xml|]; [|discriminate].
           destruct (Py.str_truthy xml); discriminate.
      * rewrite (lookup_many _ _ _ _ Hf Hm). discriminate.
    + unfold get_indexed_ref_by_query. rewrite Hf. discriminate.
  - intros Hformat Hm.
    assert (Hf : Py.str_in format ["relaton"; "bibxml"] = true)
      by (destruct Hformat as [-> | ->]; reflexivity).
    now rewrite (lookup_many _ _ _ _ Hf Hm).
Qed.

Lemma several_matches_end_in_type_error_witness :
  fst (get_indexed_ref_by_query "rfcs" Samples.any_row "bibxml" Samples.fresh)
  = Raise (TypeError
             "catching classes that do not inherit from BaseException is not allowed").
Proof.
  apply (proj2 (several_matches_end_in_type_error "rfcs" Samples.any_row "bibxml"
                                                  Samples.fresh)).
  - right. reflexivity.
  - vm_compute. lia.
Defined.

Lemma matching_in_dataset (table : list RefData) (dataset_id : string) (query : Q) :
  matching table dataset_id query
  = List.filter query (List.filter (dataset__iexact dataset_id) table).
Proof.
  unfold matching, Q_and. induction table as [|a table IH]; simpl; [reflexivity|].
  destruct (dataset__iexact dataset_id a); simpl.
  - rewrite andb_true_r. destruct (query a); now rewrite IH.
  - now rewrite andb_false_r.
Qed.

Lemma lookup_by_matching (dataset_id : string) (query : Q) (format : string)
      (w1 w2 : world) :
  matching (api_ref_data w1) dataset_id query = matching (api_ref_data w2) dataset_id query ->
  fst (get_indexed_ref_by_query dataset_id query format w1)
  = fst (get_indexed_ref_by_query dataset_id query format w2).
Proof.
  unfold matching, get_indexed_ref_by_query. intros H.
  destruct (negb (Py.str_in format ["relaton"; "bibxml"])); [reflexivity|].
  unfold bind, try_except, RefDataManager.get. rewrite H.
  destruct (List.filter _ (api_ref_data w2)) as [|a [|b l]]; simpl; try reflexivity.
  destruct (String.eqb format "relaton"); [reflexivity|].
  destruct (representations a !! "bibxml") as [xml|]; [|reflexivity].
  destruct (Py.str_truthy xml); reflexivity.
Qed.

(** X7.  The rows of other datasets never influence a lookup: two tables
    that hold the same rows of the dataset asked for (up to case) give
    the same outcome, whatever else they hold. *)
Theorem other_datasets_do_not_matter
        (dataset_id : string) (query : Q) (format : string) (w1 w2 : world) :
  List.filter (dataset__iexact dataset_id) (api_ref_data w1)
  = List.filter (dataset__iexact dataset_id) (api_ref_data w2) ->
  fst (get_indexed_ref_by_query dataset_id query format w1)
  = fst (get_indexed_ref_by_query dataset_id query format w2).
Proof.
  intros H. apply lookup_by_matching. now rewrite !matching_in_dataset, H.
Qed.

Lemma other_datasets_do_not_matter_witness :
  fst (get_indexed_ref_by_query "iso" Samples.any_row "relaton" Samples.fresh)
  = fst (get_indexed_ref_by_query "iso" Samples.any_row "relaton"
                                  (mkWorld [Samples.iso9001] [])).
Proof.
  apply (other_datasets_do_not_matter "iso" Samples.any_row "relaton" Samples.fresh
                                      (mkWorld [Samples.iso9001] [])).
  reflexivity.
Defined.

(** X8.  A reference resolved in a dataset is one of the references
    [list_refs] lists for that dataset: the body returned by the
    [relaton] format is the body of a listed row whose ref is the one
    asked for, up to case. *)
Theorem resolved_ref_is_listed (dataset_id ref_id : string) (w : world) (b : json) :
  fst (get_indexed_ref dataset_id ref_id "relaton" w) = Return (RelatonDict b) ->
  exists rows r,
    fst (list_refs dataset_id w) = Return rows
    /\ In r rows /\ body r = b /\ upper (ref r) = upper ref_id.
Proof.
  unfold get_indexed_ref. intros H.
  destruct (returned_from_row _ _ _ _ _ H) as (r & Hm & Hc).
  assert (Hin : In r (matching (api_ref_data w) dataset_id (ref__iexact ref_id)))
    by (rewrite Hm; now left).
  destruct (matching_row _ _ _ _ Hin) as (Htable & Hq & Hd).
  eexists. exists r. split; [reflexivity|]. repeat split.
  - apply List.filter_In. split; [exact Htable|].
    unfold dataset__iexact. now apply iexact_upper.
  - destruct Hc as [[_ [= ->]] | [[=] _]]. reflexivity.
  - unfold ref__iexact in Hq. now apply iexact_upper.
Qed.

Lemma resolved_ref_is_listed_witness :
  exists rows r,
    fst (list_refs "RFCs" Samples.fresh) = Return rows
    /\ In r rows /\ body r = Samples.rfc_body "1919" /\ upper (ref r) = upper "rfc1919".
Proof.
  apply (resolved_ref_is_listed "RFCs" "rfc1919" Samples.fresh (Samples.rfc_body "1919")).
  reflexivity.
Defined.

(** ** The search statement and its parameters *)

Lemma map_const_length {A B : Type} (b : B) (l1 l2 : list A) :
  List.length l1 = List.length l2 -> map (fun _ => b) l1 = map (fun _ => b) l2.
Proof.
  revert l2. induction l1 as [|x l1 IH]; intros [|y l2]; simpl; try discriminate;
    [reflexivity|]. intros [= H]. now rewrite (IH l2 H).
Qed.

(** X9.  The text of the search statement depends on how many patterns
    there are and on nothing else: no part of a pattern is written into
    it.  The statement has as many parameters as patterns, and, when
    there is a pattern, as many placeholders as parameters. *)
Theorem search_statement_shape (objs objs' : list json) :
  (List.length objs = List.length objs' ->
   raw_query (search_refs_relaton_struct objs)
   = raw_query (search_refs_relaton_struct objs'))
  /\ List.length (raw_params (search_refs_relaton_struct objs)) = List.length objs
  /\ (objs <> [] ->
      exists cond,
        raw_query (search_refs_relaton_struct objs) = select_where +:+ cond
        /\ read_condition cond
           = ContainsAny (List.length (raw_params (search_refs_relaton_struct objs)))).
Proof.
  rewrite !search_statement. cbn [raw_query raw_params]. split; [|split].
  - intros Hlen. now rewrite (map_const_length containment_test objs objs' Hlen).
  - apply length_map.
  - intros Hne. eexists. split; [reflexivity|].
    rewrite length_map. now apply read_condition_join.
Qed.

Lemma search_statement_shape_witness :
  raw_query (search_refs_relaton_struct [Samples.id_pattern "a"; Samples.doctype_pattern "b"])
  = raw_query (search_refs_relaton_struct [JArr []; JObj []])
  /\ raw_query (search_refs_relaton_struct [JArr []; JObj []])
     = "SELECT * FROM api_ref_data WHERE body @> %s::jsonb OR body @> %s::jsonb".
Proof.
  split.
  - apply (proj1 (search_statement_shape
                    [Samples.id_pattern "a"; Samples.doctype_pattern "b"]
                    [JArr []; JObj []])).
    reflexivity.
  - reflexivity.
Defined.




(** ** Containment of a document in itself *)

Lemma scalar_eqb_refl (j : json) : is_scalar j = true -> scalar_eqb j j = true.
Proof.
  destruct j; simpl; try discriminate; intros _.
  - reflexivity.
  - now destruct b.
  - apply Z.eqb_refl.
  - apply String.eqb_refl.
Qed.

Lemma member_unique (members : list (string * json)) (k : string) (v : json) :
  unique_names (map fst members) = true -> In (k, v) members -> member k members = Some v.
Proof.
  induction members as [|[k' v'] ms IH]; simpl; [contradiction|].
  intros Hu Hin. apply andb_true_iff in Hu as [Hfresh Hu].
  destruct Hin as [[= -> ->] | Hin].
  - now rewrite String.eqb_refl.
  - destruct (String.eqb k' k) eqn:E; [|now apply IH].
    apply String.eqb_eq in E. subst k'. exfalso.
    apply negb_true_iff in Hfresh.
    assert (Hex : existsb (String.eqb k) (map fst ms) = true).
    { apply existsb_exists. exists k. split; [|apply String.eqb_refl].
      apply in_map_iff. now exists (k, v). }
    congruence.
Qed.

(** A document whose dicts have distinct keys contains itself. *)
Lemma contains_itself (j : json) :
  distinct_keys j = true -> structurally_contains j j = true.
Proof.
  induction j as [ | b | n | s | items IH | members IH ] using json_ind; intros Hd;
    try (apply scalar_eqb_refl; reflexivity).
  - simpl in *. rewrite forallb_forall in *. rewrite Forall_forall in IH.
    intros p Hp. apply existsb_exists. exists p. split; [exact Hp|].
    apply IH; [now apply list_elem_of_In | now apply Hd].
  - simpl in *. apply andb_true_iff in Hd as [Hu Hd].
    rewrite forallb_forall in *. rewrite Forall_forall in IH.
    intros [k p] Hp. rewrite (member_unique members k p Hu Hp).
    apply (IH (k, p)); [now apply list_elem_of_In | apply (Hd (k, p) Hp)].
Qed.

(** X13.  A row whose body is a dict or a list, with distinct keys in
    every dict and no NUL character in any string (as every stored body
    is), is found by a search for its own body. *)
Theorem own_body_is_found (w : world) (r : RefData) :
  In r (api_ref_data w) ->
  is_document (body r) = true -> distinct_keys (body r) = true ->
  storable (body r) = true ->
  exists rows,
    fst (iterate (search_refs_relaton_struct [body r]) w) = Return rows /\ In r rows.
Proof.
  intros Hin Hdoc Hkeys Hst.
  rewrite iterate_outcome, run_search by (try discriminate; repeat constructor; exact Hst).
  eexists. split; [reflexivity|]. apply List.filter_In. split; [exact Hin|].
  simpl. rewrite (jsonb_contains_structural _ _ Hdoc), (contains_itself _ Hkeys).
  reflexivity.
Qed.

Lemma own_body_is_found_witness :
  exists rows,
    fst (iterate (search_refs_relaton_struct [Samples.iso_body]) Samples.fresh) = Return rows
    /\ In Samples.iso9001 rows.
Proof.
  apply (own_body_is_found Samples.fresh Samples.iso9001).
  - vm_compute. tauto.
  - reflexivity.
  - reflexivity.
  - reflexivity.
Defined.

(** ** More on [list_doctypes] *)

Lemma lockstep_length (a b : list (option string)) :
  List.length (lockstep a b) = Nat.max (List.length a) (List.length b).
Proof.
  revert b. induction a as [|x a IH]; intros b; simpl.
  - apply length_map.
  - destruct b as [|y b]; simpl; [now rewrite length_map | now rewrite IH].
Qed.

Lemma lockstep_sides (a b : list (option string)) (x y : option string) :
  In (x, y) (lockstep a b) -> (In x a \/ x = None) /\ (In y b \/ y = None).
Proof.
  revert b. induction a as [|x0 a IH]; intros b; simpl.
  - rewrite in_map_iff. intros (y0 & [= <- <-] & Hin). auto.
  - destruct b as [|y0 b]; simpl.
    + intros [[= <- <-] | Hin]; [auto|].
      apply in_map_iff in Hin as (x1 & [= <- <-] & Hin). auto.
    + intros [[= <- <-] | Hin]; [auto|].
      destruct (IH b Hin) as [[?|?] [?|?]]; auto.
Qed.

(** X14.  For every record the inner select yields as many rows as the
    longer of its two columns: the number of [type] values or the number
    of [id] values found under [docid], whichever is larger. *)
Theorem inner_rows_count (r : RefData) :
  List.length (items_of r)
  = Nat.max (List.length (path_docid "type" (body r)))
            (List.length (path_docid "id" (body r))).
Proof.
  unfold items_of. now rewrite length_map, lockstep_length, !length_map.
Qed.

Lemma no_docid_no_items (r : RefData) (members : list (string * json)) :
  body r = JObj members -> member "docid" members = None -> items_of r = [].
Proof.
  intros Hb Hm. unfold items_of, path_docid. rewrite Hb. simpl. rewrite Hm. reflexivity.
Qed.

(** X15.  Records without a [docid] key raise nothing and contribute
    nothing: over a table of such records every result of
    [list_doctypes] is the empty list. *)
Theorem list_doctypes_without_docid
        (table : list RefData) (result : list (option string * option string)) :
  (forall r, In r table ->
             exists members, body r = JObj members /\ member "docid" members = None) ->
  list_doctypes_returns table result ->
  result = [] /\ list_doctypes table = [].
Proof.
  intros Hno Hres.
  assert (Hsel : inner_select table = []).
  { clear Hres. unfold inner_select.
    induction table as [|r table IH]; simpl; [reflexivity|].
    destruct (Hno r ltac:(now left)) as (members & Hb & Hm).
    rewrite (no_docid_no_items r members Hb Hm). simpl.
    apply IH. intros r' Hr'. apply Hno. now right. }
  split.
  - destruct Hres as (kept & (_ & Hin & _) & ->). rewrite Hsel in Hin.
    destruct kept as [|i kept]; [reflexivity|]. destruct (Hin i ltac:(now left)).
  - unfold list_doctypes. now rewrite Hsel.
Qed.

Lemma list_doctypes_without_docid_witness :
  list_doctypes [mkRefData 9 "misc" "bare" (JObj [("id", JStr "bare")]) ∅] = [].
Proof.
  apply (list_doctypes_without_docid
           [mkRefData 9 "misc" "bare" (JObj [("id", JStr "bare")]) ∅]
           (list_doctypes [mkRefData 9 "misc" "bare" (JObj [("id", JStr "bare")]) ∅])).
  - intros r [<- | []]. eexists. split; reflexivity.
  - apply list_doctypes_admitted.
Defined.

(** X16.  Whatever the shape of the bodies, each pair that
    [list_doctypes] returns is taken from one record: its doctype is the
    text of a [type] value found under that record's [docid], or NULL,
    and its sample id is the text of an [id] value found under the same
    record's [docid], or NULL. *)
Theorem returned_pair_is_of_one_record
        (table : list RefData) (result : list (option string * option string))
        (d s : option string) :
  list_doctypes_returns table result -> In (d, s) result ->
  exists r,
    In r table
    /\ (In d (map element_text (path_docid "type" (body r))) \/ d = None)
    /\ (In s (map element_text (path_docid "id" (body r))) \/ s = None).
Proof.
  intros (kept & (_ & Hin & _) & ->) Hds.
  apply in_map_iff in Hds as (i & [= <- <-] & Hi).
  apply Hin, in_inner_select in Hi as (r & Hr & Hi).
  exists r. split; [exact Hr|].
  unfold items_of in Hi. apply in_map_iff in Hi as ([x y] & <- & Hxy).
  simpl. now apply lockstep_sides.
Qed.

Lemma returned_pair_is_of_one_record_witness :
  exists r,
    In r [untyped_first]
    /\ (In (Some "T") (map element_text (path_docid "type" (body r))) \/ Some "T" = None)
    /\ (In (Some "A") (map element_text (path_docid "id" (body r))) \/ Some "A" = None).
Proof.
  apply (returned_pair_is_of_one_record [untyped_first] (list_doctypes [untyped_first])).
  - apply list_doctypes_admitted.
  - left. reflexivity.
Defined.

(** ** Outcomes that always or never happen *)




